(** * cli_weather_forecast: weather.py as a shallow embedding

    The program is one linear pipeline: read the city tokens, load the API
    key from [secrets.ini], build the request URL, fetch and parse the
    answer of the weather API, print one styled line.

    Conventions of the embedding.
    - A Python [str] is modelled by its UTF-8 encoding, a Rocq [string];
      lengths that Python counts in code points are counted that way here
      ([py_len]).  The string literals below are the literals of weather.py,
      byte for byte.
    - A Python [int] is a [Z]; a Python [float] is a binary64 value, held
      as a [spec_float].
    - Exceptions are values of [exn]; every effectful function runs in the
      monad [M] over the state of the outside world ([World]): the
      configuration file, the weather server, the log of requests sent and
      what went to the terminal. *)

From stdpp Require Import base gmap strings.
From Stdlib Require Import ZArith List Bool Lia.
From Stdlib Require Import Strings.String Strings.Ascii.
From Stdlib Require Import Floats.SpecFloat.
From Stdlib Require Import Numbers.DecimalString.
From Stdlib Require Numbers.DecimalPos Numbers.DecimalZ.
Import ListNotations.

Local Open Scope string_scope.
Local Open Scope Z_scope.

(** ** Bytes and strings *)

Definition byte_val (c : ascii) : Z := Z.of_N (N_of_ascii c).
Definition byte_of (z : Z) : ascii := ascii_of_N (Z.to_N z).

Definition quote_char : ascii := byte_of 34.
Definition apostrophe : ascii := byte_of 39.
Definition backslash : ascii := byte_of 92.
Definition TAB : string := String (byte_of 9) "".

(** A byte of the form 10xxxxxx continues a UTF-8 sequence. *)
Definition is_continuation (c : ascii) : bool :=
  Z.land (byte_val c) 192 =? 128.

(** [len(s)]: the number of code points of [s]. *)
Fixpoint py_len (s : string) : nat :=
  match s with
  | EmptyString => O
  | String c rest => if is_continuation c then py_len rest else S (py_len rest)
  end.

Fixpoint spaces (n : nat) : string :=
  match n with
  | O => ""
  | S k => String " " (spaces k)
  end.

Fixpoint zeros (n : nat) : string :=
  match n with
  | O => ""
  | S k => String "0" (zeros k)
  end.

(** The format spec [^width] on a string: the text is centred in a field of
    [width] code points, the left padding being half of the total padding
    rounded down. *)
Definition center (s : string) (width : nat) : string :=
  let pad := (width - py_len s)%nat in
  let left := Nat.div pad 2 in
  spaces left +:+ s +:+ spaces (pad - left)%nat.

Definition is_lower (c : ascii) : bool := (97 <=? byte_val c) && (byte_val c <=? 122).
Definition is_upper (c : ascii) : bool := (65 <=? byte_val c) && (byte_val c <=? 90).
Definition to_upper (c : ascii) : ascii := if is_lower c then byte_of (byte_val c - 32) else c.
Definition to_lower (c : ascii) : ascii := if is_upper c then byte_of (byte_val c + 32) else c.

Fixpoint lower (s : string) : string :=
  match s with
  | EmptyString => ""
  | String c rest => String (to_lower c) (lower rest)
  end.

(** [str.capitalize()]: the first character upper-cased, every other one
    lower-cased.  The case mapping is the ASCII one, so the function is
    that of Python on ASCII strings; bytes of other code points are kept,
    where Python maps them by the Unicode tables. *)
Definition capitalize (s : string) : string :=
  match s with
  | EmptyString => ""
  | String c rest => String (to_upper c) (lower rest)
  end.

Fixpoint join (sep : string) (parts : list string) : string :=
  match parts with
  | [] => ""
  | [p] => p
  | p :: rest => p +:+ sep +:+ join sep rest
  end.

Fixpoint starts_with (p s : string) : bool :=
  match p, s with
  | EmptyString, _ => true
  | String a p', String b s' => if Ascii.eqb a b then starts_with p' s' else false
  | String _ _, EmptyString => false
  end.

(** [needle in hay] on strings. *)
Fixpoint contains (needle hay : string) : bool :=
  starts_with needle hay ||
  match hay with
  | EmptyString => false
  | String _ rest => contains needle rest
  end.

Fixpoint mem_char (c : ascii) (s : string) : bool :=
  match s with
  | EmptyString => false
  | String a rest => Ascii.eqb a c || mem_char c rest
  end.

Definition hex_digit (z : Z) : ascii :=
  if z <? 10 then byte_of (48 + z) else byte_of (55 + z).

Definition hex_digit_lower (z : Z) : ascii :=
  if z <? 10 then byte_of (48 + z) else byte_of (87 + z).

(** [str(n)] for an [int]. *)
Definition int_str (n : Z) : string := NilZero.string_of_int (Z.to_int n).

(** ** Python values

    What [json.loads] can return: [None], booleans, integers, floats,
    strings, lists, and dictionaries with string keys.  A dictionary keeps
    its entries in insertion order, so it is an association list; its keys
    are distinct and a lookup takes the first entry of a key. *)

#[warnings="-register-all"]
Inductive pyval : Type :=
| PNone
| PBool (b : bool)
| PInt (n : Z)
| PFloat (f : spec_float)
| PStr (s : string)
| PList (items : list pyval)
| PDict (entries : list (string * pyval)).

Inductive exn : Type :=
| SystemExit (arg : string)
| KeyError (key : pyval)
| IndexError
| TypeError
| AttributeError
| HTTPError (code : Z)
| URLError
| InvalidURL
| HTTPException
| ValueError
| JSONDecodeError
| UnicodeDecodeError
| RecursionError
| ConfigParserError
| InterpolationError.

Inductive result (A : Type) : Type :=
| Returned (a : A)
| Raised (e : exn).
Arguments Returned {A} a.
Arguments Raised {A} e.

(** *** Floats *)

(** The binary64 value [m * 2^e] with its mantissa on 53 bits, or on fewer
    at the least exponent -1074. *)
Definition binary64_normalize (m : positive) (e : Z) : Z * Z :=
  let shift := Z.min (52 - Z.log2 (Zpos m)) (e + 1074) in
  (Z.shiftl (Zpos m) shift, e - shift).

(** The search of [repr]: the decimal [c * 10^p] with the fewest digits that
    reads back as the float, and the nearest to it among those.  The float
    is [x * 2^a] and reads back from everything between [lo * 2^a] and
    [hi * 2^a] (the bounds included when [closed]); [p] goes down from a
    power of ten above the float. *)
Fixpoint shortest_decimal (fuel : nat) (x lo hi a : Z) (closed : bool) (p : Z) : Z * Z :=
  let sx := 2 ^ Z.max a 0 * 10 ^ Z.max (- p) 0 in
  let u := 2 ^ Z.max (- a) 0 * 10 ^ Z.max p 0 in
  let X := x * sx in
  let L := lo * sx in
  let H := hi * sx in
  let k := X / u in
  let inside (c : Z) :=
    (0 <? c) &&
    (if closed then (L <=? c * u) && (c * u <=? H) else (L <? c * u) && (c * u <? H)) in
  let below := X - k * u in
  let above := (k + 1) * u - X in
  let pick :=
    match inside k, inside (k + 1) with
    | true, true =>
        if below <? above then Some k
        else if above <? below then Some (k + 1)
        else Some (if Z.even k then k else k + 1)
    | true, false => Some k
    | false, true => Some (k + 1)
    | false, false => None
    end in
  match pick with
  | Some c => (c, p)
  | None =>
      match fuel with
      | O => (k, p)
      | S fuel' => shortest_decimal fuel' x lo hi a closed (p - 1)
      end
  end.

(** The digits of the shortest decimal of [m * 2^e] and the position of its
    decimal point: the value is [0.digits * 10^decpt]. *)
Definition float_digits (m : positive) (e : Z) : string * Z :=
  let '(m', e') := binary64_normalize m e in
  let x := 4 * m' in
  let lo := if (m' =? 2 ^ 52) && (-1074 <? e') then x - 1 else x - 2 in
  let hi := x + 2 in
  let a := e' - 2 in
  let start := (Z.log2 x + a + 1) * 30103 / 100000 + 2 in
  let '(c, p) := shortest_decimal 40 x lo hi a (Z.even m') start in
  let digits := int_str c in
  (digits, Z.of_nat (String.length digits) + p).

Definition two_digits (n : Z) : string :=
  if n <? 10 then "0" +:+ int_str n else int_str n.

(** The layout of [repr]: exponent notation from 1e16 on and below 1e-4,
    else positional notation with at least one digit after the point. *)
Definition float_layout (digits : string) (decpt : Z) : string :=
  let n := Z.of_nat (String.length digits) in
  if (decpt <=? -4) || (16 <? decpt) then
    let mantissa :=
      match digits with
      | String d EmptyString => digits
      | String d rest => String d ("." +:+ rest)
      | EmptyString => ""
      end in
    let ex := decpt - 1 in
    mantissa +:+ "e" +:+ (if ex <? 0 then "-" else "+") +:+ two_digits (Z.abs ex)
  else if decpt <=? 0 then
    "0." +:+ zeros (Z.to_nat (- decpt)) +:+ digits
  else if decpt <? n then
    substring 0 (Z.to_nat decpt) digits +:+ "." +:+
    substring (Z.to_nat decpt) (Z.to_nat (n - decpt)) digits
  else
    digits +:+ zeros (Z.to_nat (decpt - n)) +:+ ".0".

(** [repr(x)] and [str(x)] for a float. *)
Definition float_repr (f : spec_float) : string :=
  match f with
  | S754_nan => "nan"
  | S754_infinity s => if s then "-inf" else "inf"
  | S754_zero s => if s then "-0.0" else "0.0"
  | S754_finite s m e =>
      let '(digits, decpt) := float_digits m e in
      (if s then "-" else "") +:+ float_layout digits decpt
  end.

(** The integer a float is equal to, if any. *)
Definition float_int_value (f : spec_float) : option Z :=
  match f with
  | S754_zero _ => Some 0
  | S754_finite s m e =>
      let sign := if s then -1 else 1 in
      if 0 <=? e then Some (sign * (Zpos m * 2 ^ e))
      else if Zpos m mod 2 ^ (- e) =? 0 then Some (sign * (Zpos m / 2 ^ (- e)))
      else None
  | _ => None
  end.

(** *** [repr], [str] and [format] *)

Definition escape_char (q c : ascii) : string :=
  if Ascii.eqb c backslash then String backslash (String backslash "")
  else if Ascii.eqb c q then String backslash (String q "")
  else if byte_val c =? 9 then String backslash "t"
  else if byte_val c =? 10 then String backslash "n"
  else if byte_val c =? 13 then String backslash "r"
  else if (byte_val c <? 32) || (byte_val c =? 127) then
    String backslash
      (String "x" (String (hex_digit_lower (byte_val c / 16))
                     (String (hex_digit_lower (byte_val c mod 16)) "")))
  else String c "".

Fixpoint escape (q : ascii) (s : string) : string :=
  match s with
  | EmptyString => ""
  | String c rest => escape_char q c +:+ escape q rest
  end.

(** [repr] of a string: in apostrophes, or in quotes when it holds an
    apostrophe and no quote; the code points outside ASCII are taken as
    printable and kept. *)
Definition str_repr (s : string) : string :=
  let q := if mem_char apostrophe s && negb (mem_char quote_char s)
           then quote_char else apostrophe in
  String q (escape q s +:+ String q "").

Fixpoint py_repr (v : pyval) : string :=
  match v with
  | PNone => "None"
  | PBool b => if b then "True" else "False"
  | PInt n => int_str n
  | PFloat f => float_repr f
  | PStr s => str_repr s
  | PList items => "[" +:+ join ", " (map py_repr items) +:+ "]"
  | PDict entries =>
      "{" +:+ join ", " (map (fun kv => str_repr (fst kv) +:+ ": " +:+ py_repr (snd kv)) entries)
      +:+ "}"
  end.

(** [str(v)], what an f-string field without a format spec gives. *)
Definition py_str (v : pyval) : string :=
  match v with
  | PStr s => s
  | _ => py_repr v
  end.

(** [format(v, "^width")], the f-string field [{v:^width}]: strings and
    numbers are centred, a boolean counts as the integer it is, and [None],
    lists and dictionaries reject a format spec. *)
Definition py_format_center (v : pyval) (width : nat) : result string :=
  match v with
  | PStr s => Returned (center s width)
  | PInt n => Returned (center (int_str n) width)
  | PBool b => Returned (center (if b then "1" else "0") width)
  | PFloat f => Returned (center (float_repr f) width)
  | PNone | PList _ | PDict _ => Raised TypeError
  end.

(** *** Subscripts *)

Fixpoint dict_get (entries : list (string * pyval)) (k : string) : option pyval :=
  match entries with
  | [] => None
  | (k', v) :: rest => if String.eqb k' k then Some v else dict_get rest k
  end.

(** The code points of a string, each as the string of its bytes. *)
Fixpoint utf8_chars (s : string) : list string :=
  match s with
  | EmptyString => []
  | String c rest =>
      match rest with
      | String d _ =>
          if is_continuation d then
            match utf8_chars rest with
            | ch :: chs => String c ch :: chs
            | [] => [String c ""]
            end
          else String c "" :: utf8_chars rest
      | EmptyString => [String c ""]
      end
  end.

Definition seq_index {A : Type} (l : list A) (i : Z) : option A :=
  let n := Z.of_nat (List.length l) in
  let j := if i <? 0 then i + n else i in
  if (0 <=? j) && (j <? n) then nth_error l (Z.to_nat j) else None.

(** [v[k]] for a string key [k]. *)
Definition getitem_key (v : pyval) (k : string) : result pyval :=
  match v with
  | PDict entries =>
      match dict_get entries k with
      | Some x => Returned x
      | None => Raised (KeyError (PStr k))
      end
  | _ => Raised TypeError
  end.

(** [v[i]] for an integer [i]. *)
Definition getitem_index (v : pyval) (i : Z) : result pyval :=
  match v with
  | PList items =>
      match seq_index items i with
      | Some x => Returned x
      | None => Raised IndexError
      end
  | PStr s =>
      match seq_index (utf8_chars s) i with
      | Some ch => Returned (PStr ch)
      | None => Raised IndexError
      end
  | PDict _ => Raised (KeyError (PInt i))
  | _ => Raised TypeError
  end.

(** [v == n] for an integer [n]: true of the integer itself, of the boolean
    and of the float equal to it. *)
Definition int_value (v : pyval) : option Z :=
  match v with
  | PInt n => Some n
  | PBool b => Some (if b then 1 else 0)
  | PFloat f => float_int_value f
  | _ => None
  end.

(** The two kinds of containers the weather codes are kept in:
    [range(lo, hi)] and a tuple of codes. *)
Inductive codes : Type :=
| range (lo hi : Z)
| tuple (members : list Z).

(** [v in c]. *)
Definition py_in (v : pyval) (c : codes) : bool :=
  match int_value v with
  | Some n =>
      match c with
      | range lo hi => (lo <=? n) && (n <? hi)
      | tuple members => existsb (Z.eqb n) members
      end
  | None => false
  end.

(** ** The outside world and the monad of effects *)

(** The value of an option as [ConfigParser] hands it out: its text after
    interpolation, or a text that cannot be interpolated. *)
Inductive ini_value : Type :=
| Interpolated (text : string)
| Uninterpolable.

(** The content of a configuration file: the options of the [DEFAULT]
    section and those of every other section, by name. *)
Record config : Type := mkConfig {
  defaults : gmap string ini_value;
  sections : gmap string (gmap string ini_value)
}.

(** A configuration file as [ConfigParser] reads it: text it cannot parse,
    or sections of options. *)
Inductive ini_file : Type :=
| Malformed
| Wellformed (content : config).

(** What becomes of a GET request for a URL: the server answers with a
    response, it answers with an HTTP error status, it cannot be reached,
    [urlopen] raises an exception without sending anything (a URL it does
    not accept: [ValueError], [InvalidURL]), or the request is sent and
    [urlopen] raises an exception of the connection. *)
Inductive answer : Type :=
| Success (body : string)
| Failure (status : Z)
| Unreachable
| Refused (e : exn)
| Broken (e : exn).

Module style.

(** Modelled from the spec: the constants of the module [style], which is
    not among the sources.  The spec calls them color tokens; they are
    kept as names. *)
Inductive color : Type :=
| REVERSE | RESET | RED | CYAN | BLUE | WHITE | PALEBLUEHUE
| ASH | LIGHTBLUE | BROWN | YELLOW.

End style.

(** What reaches the terminal: text, and changes of the current style. *)
Inductive terminal_event : Type :=
| Style (c : style.color)
| Text (s : string).

(** The state of the outside world: the configuration files by their path
    (a file that is not there has no entry), what the server answers to
    each URL, the requests sent so far and what has reached the terminal so
    far. *)
Record World : Type := mkWorld {
  files : gmap string ini_file;
  server : string -> answer;
  requests : list string;
  stdout : list terminal_event
}.

(** A computation returns or raises, and leaves a world behind. *)
Definition M (A : Type) : Type := World -> result A * World.

Definition ret {A : Type} (a : A) : M A := fun w => (Returned a, w).

Definition raise {A : Type} (e : exn) : M A := fun w => (Raised e, w).

Definition bind {A B : Type} (m : M A) (k : A -> M B) : M B :=
  fun w =>
    match m w with
    | (Returned a, w') => k a w'
    | (Raised e, w') => (Raised e, w')
    end.

Definition lift {A : Type} (r : result A) : M A := fun w => (r, w).

(** [try: body except ...: handler]; the handler says which exceptions it
    takes. *)
Definition try_except {A : Type} (body : M A) (handler : exn -> option (M A)) : M A :=
  fun w =>
    match body w with
    | (Returned a, w') => (Returned a, w')
    | (Raised e, w') =>
        match handler e with
        | Some h => h w'
        | None => (Raised e, w')
        end
    end.

Notation "x <- m ;; k" := (bind m (fun x => k))
  (at level 100, m at next level, right associativity).
Notation "m ;; k" := (bind m (fun _ => k))
  (at level 100, right associativity).

(** [print(text, end=...)] with the end already appended to [text]. *)
Definition print (text : string) : M unit :=
  fun w => (Returned tt,
            mkWorld (files w) (server w) (requests w) (stdout w ++ [Text text])).

(** The status the process ends with: 0 when the program runs to its end,
    1 when an exception, [SystemExit] with a message included, is not
    caught. *)
Definition exit_status {A : Type} (r : result A) : Z :=
  match r with
  | Returned _ => 0
  | Raised _ => 1
  end.

(** The text printed, without the style changes. *)
Fixpoint printed_text (out : list terminal_event) : string :=
  match out with
  | [] => ""
  | Text s :: rest => s +:+ printed_text rest
  | Style _ :: rest => printed_text rest
  end.

Module sys.

(** [sys.exit(message)]. *)
Definition exit {A : Type} (message : string) : M A := raise (SystemExit message).

End sys.

Module StyleOps.

(** Modelled from the spec: [style.change_color], which is not among the
    sources; it switches the current style of the terminal. *)
Definition change_color (c : style.color) : M unit :=
  fun w => (Returned tt,
            mkWorld (files w) (server w) (requests w) (stdout w ++ [Style c])).

End StyleOps.

Module request.

(** [request.urlopen(url)]: a GET request for [url]. A success gives the
    response, an HTTP error status raises [HTTPError], a server that cannot
    be reached [URLError]; a URL that [urlopen] does not accept raises
    before anything is sent. The log holds the URLs that [urlopen] was asked
    for and took up; the requests it adds on its own when it follows a
    redirection are not in it. *)
Definition urlopen (url : string) : M string :=
  fun w =>
    let w' := mkWorld (files w) (server w) (requests w ++ [url]) (stdout w) in
    match server w url with
    | Success body => (Returned body, w')
    | Failure status => (Raised (HTTPError status), w')
    | Unreachable => (Raised URLError, w')
    | Refused e => (Raised e, w)
    | Broken e => (Raised e, w')
    end.

(** [response.read()], for a response whose body arrives whole. *)
Definition read (response : string) : M string := ret response.

End request.

Module json.

(** [json.loads(data)]: the value of the document, or the exception that
    the library raises on [data]: [JSONDecodeError] for a text that is not a
    JSON document, [UnicodeDecodeError] for bytes that are not a text,
    [ValueError] or [RecursionError] for a document beyond its limits. What
    the library does on each body is the parameter [decode]. *)
Definition loads (decode : string -> result pyval) (data : string) : M pyval :=
  lift (decode data).

End json.

Module configparser.

(** [ConfigParser()] then [read(filename)]: a file that is not there is
    skipped and leaves the configuration empty. *)
Definition read (filename : string) : M config :=
  fun w =>
    match files w !! filename with
    | None => (Returned (mkConfig ∅ ∅), w)
    | Some Malformed => (Raised ConfigParserError, w)
    | Some (Wellformed content) => (Returned content, w)
    end.

(** [config[section]]: the section, by its name. *)
Definition section (cfg : config) (name : string) : M string :=
  match sections cfg !! name with
  | Some _ => ret name
  | None => raise (KeyError (PStr name))
  end.

(** [config[section][option]]: the option of the section, or else of the
    defaults. *)
Definition option_value (cfg : config) (name option : string) : M string :=
  let found :=
    match sections cfg !! name with
    | Some options =>
        match options !! option with
        | Some v => Some v
        | None => defaults cfg !! option
        end
    | None => None
    end in
  match found with
  | Some (Interpolated text) => ret text
  | Some Uninterpolable => raise InterpolationError
  | None => raise (KeyError (PStr option))
  end.

End configparser.

Module parse.

Definition always_safe (c : ascii) : bool :=
  is_upper c || is_lower c || ((48 <=? byte_val c) && (byte_val c <=? 57))
  || mem_char c "_.-~".

Definition quote_byte (safe : string) (c : ascii) : string :=
  if always_safe c || mem_char c safe then String c ""
  else String "%" (String (hex_digit (byte_val c / 16))
                     (String (hex_digit (byte_val c mod 16)) "")).

(** [parse.quote(string, safe)]. *)
Fixpoint quote (s safe : string) : string :=
  match s with
  | EmptyString => ""
  | String c rest => quote_byte safe c +:+ quote rest safe
  end.

Fixpoint replace_char (a b : ascii) (s : string) : string :=
  match s with
  | EmptyString => ""
  | String c rest => String (if Ascii.eqb c a then b else c) (replace_char a b rest)
  end.

(** [parse.quote_plus(string)]. *)
Definition quote_plus (s : string) : string :=
  if negb (mem_char " " s) then quote s ""
  else replace_char " " "+" (quote s " ").

End parse.

(** ** weather.py *)

Definition BASE_WEATHER_API_URL : string := "http://api.openweathermap.org/data/2.5/weather".

Definition THUNDERSTORM : codes := range 200 300.
Definition DRIZZLE : codes := range 300 400.
Definition RAIN : codes := range 500 600.
Definition SNOW : codes := range 600 700.
Definition MIST : codes := tuple [701].
Definition SMOKE : codes := tuple [711].
Definition HAZE : codes := tuple [721].
Definition DUSTWHRIL : codes := tuple [731].
Definition FOG : codes := tuple [741].
Definition SAND : codes := tuple [751].
Definition DUST : codes := tuple [761].
Definition ASH : codes := tuple [762].
Definition SQUALL : codes := tuple [771].
Definition TORNADO : codes := tuple [781].
Definition CLEAR : codes := range 800 801.
Definition CLOUDY : codes := range 801 900.

(** Fetches the API key from the configuration file [secrets.ini], section
    [openweather], option [api_key]. *)
Definition _get_api_key : M string :=
  config <- configparser.read "secrets.ini" ;;
  openweather <- configparser.section config "openweather" ;;
  configparser.option_value config openweather "api_key".

(** Builds the URL for a request to the weather API from the city tokens
    collected on the command line. *)
Definition build_weather_query (city_input : list string) : M string :=
  api_key <- _get_api_key ;;
  let city_name := join " " city_input in
  let url_encoded_city_name := parse.quote_plus city_name in
  let units := "metric" in
  let url := BASE_WEATHER_API_URL +:+ "?q=" +:+ url_encoded_city_name
             +:+ "&units=" +:+ units +:+ "&appid=" +:+ api_key in
  ret url.

(** Makes the request to the URL and returns the data as a Python value.
    [decode] is what [json.loads] does on a body. *)
Definition get_weather_data (decode : string -> result pyval) (query_url : string) : M pyval :=
  response <-
    try_except (request.urlopen query_url)
      (fun e =>
         match e with
         | HTTPError code =>
             Some (if code =? 401 then sys.exit "Access denied. Check your API key."
                   else if code =? 404 then sys.exit "Can't find weather data for this city."
                   else sys.exit ("Something went wrong... (" +:+ int_str code +:+ ")"))
         | _ => None
         end) ;;
  data <- request.read response ;;
  try_except (json.loads decode data)
    (fun e =>
       match e with
       | JSONDecodeError => Some (sys.exit "Couldn't read the server response.")
       | _ => None
       end).

(** Selects a weather symbol and a display color for a weather code; the
    last pair is there in case the API adds new weather codes. *)
Definition _select_weather_display_params (weather_id : pyval) : string * style.color :=
  if py_in weather_id THUNDERSTORM then ("â›ˆï¸", style.RED)
  else if py_in weather_id DRIZZLE then ("ğŸŒ§ï¸", style.CYAN)
  else if py_in weather_id RAIN then ("â˜”", style.BLUE)
  else if py_in weather_id SNOW then ("â„ï¸", style.WHITE)
  else if py_in weather_id MIST then ("ğŸŒ«ï¸", style.PALEBLUEHUE)
  else if py_in weather_id SMOKE then ("ğŸ’¨", style.ASH)
  else if py_in weather_id HAZE then ("ğŸ˜¶â€ğŸŒ«ï¸", style.LIGHTBLUE)
  else if py_in weather_id DUSTWHRIL then ("ğŸŒªï¸", style.BROWN)
  else if py_in weather_id FOG then ("ğŸ˜¶â€ğŸŒ«ï¸", style.ASH)
  else if py_in weather_id SAND then ("ğŸœï¸", style.YELLOW)
  else if py_in weather_id DUST then ("ğŸ’¨", style.BROWN)
  else if py_in weather_id ASH then ("ğŸŒ‹", style.RED)
  else if py_in weather_id SQUALL then ("ğŸŒ¬ï¸", style.BLUE)
  else if py_in weather_id TORNADO then ("ğŸŒªï¸", style.WHITE)
  else if py_in weather_id CLEAR then ("â˜€ï¸", style.YELLOW)
  else if py_in weather_id CLOUDY then ("â›…", style.WHITE)
  else ("ğŸŒˆ", style.RESET).

(** The table of the Display Formatter as the specification gives it, row
    by row and in its order: half-open ranges, exact codes, and the pair of
    each row. *)
Definition display_table : list (codes * (string * style.color)) :=
  [ (range 200 300, ("â›ˆï¸", style.RED));
    (range 300 400, ("ğŸŒ§ï¸", style.CYAN));
    (range 500 600, ("â˜”", style.BLUE));
    (range 600 700, ("â„ï¸", style.WHITE));
    (tuple [701], ("ğŸŒ«ï¸", style.PALEBLUEHUE));
    (tuple [711], ("ğŸ’¨", style.ASH));
    (tuple [721], ("ğŸ˜¶â€ğŸŒ«ï¸", style.LIGHTBLUE));
    (tuple [731], ("ğŸŒªï¸", style.BROWN));
    (tuple [741], ("ğŸ˜¶â€ğŸŒ«ï¸", style.ASH));
    (tuple [751], ("ğŸœï¸", style.YELLOW));
    (tuple [761], ("ğŸ’¨", style.BROWN));
    (tuple [762], ("ğŸŒ‹", style.RED));
    (tuple [771], ("ğŸŒ¬ï¸", style.BLUE));
    (tuple [781], ("ğŸŒªï¸", style.WHITE));
    (tuple [800], ("â˜€ï¸", style.YELLOW));
    (range 801 900, ("â›…", style.WHITE)) ].

Definition fallback_params : string * style.color := ("ğŸŒˆ", style.RESET).

(** The first row of a table that holds the code. *)
Fixpoint first_match (table : list (codes * (string * style.color))) (v : pyval)
  : option (string * style.color) :=
  match table with
  | [] => None
  | (c, params) :: rest => if py_in v c then Some params else first_match rest v
  end.

(** The integer [code] is in the range or among the exact codes of a row. *)
Definition in_codes (code : Z) (c : codes) : Prop :=
  match c with
  | range lo hi => lo <= code < hi
  | tuple members => In code members
  end.

(** The code is in no row of the table. *)
Definition unlisted (code : Z) : Prop :=
  forall row, In row display_table -> ~ in_codes code (fst row).

(** [weather_description.capitalize()]: only a string has the method. *)
Definition method_capitalize (v : pyval) : M string :=
  match v with
  | PStr s => ret (capitalize s)
  | _ => raise AttributeError
  end.

(** Prints the formatted weather information about a city.
    Modelled from the spec: [style.PADDING], the fixed width of the two
    centred fields, is a constant of the module [style], which is not among
    the sources; it is the parameter [PADDING]. *)
Definition display_weather_info (PADDING : nat) (weather_data : pyval) : M unit :=
  city <- lift (getitem_key weather_data "name") ;;
  weather <- lift (getitem_key weather_data "weather") ;;
  weather_0 <- lift (getitem_index weather 0) ;;
  weather_id <- lift (getitem_key weather_0 "id") ;;
  weather' <- lift (getitem_key weather_data "weather") ;;
  weather_0' <- lift (getitem_index weather' 0) ;;
  weather_description <- lift (getitem_key weather_0' "description") ;;
  main <- lift (getitem_key weather_data "main") ;;
  temperature <- lift (getitem_key main "temp") ;;
  StyleOps.change_color style.REVERSE ;;
  city_field <- lift (py_format_center city PADDING) ;;
  print city_field ;;
  StyleOps.change_color style.RESET ;;
  let '(weather_symbol, color) := _select_weather_display_params weather_id in
  StyleOps.change_color color ;;
  print (TAB +:+ weather_symbol +:+ " ") ;;
  capitalized <- method_capitalize weather_description ;;
  description_field <- lift (py_format_center (PStr capitalized) PADDING) ;;
  print (TAB +:+ description_field +:+ " ") ;;
  StyleOps.change_color style.RESET ;;
  print ("(" +:+ py_str temperature +:+ "Â°" +:+ "C" +:+ ")").

(** The body of the script, after the command line has been read into the
    city tokens. *)
Definition main (decode : string -> result pyval) (PADDING : nat) (city : list string) : M unit :=
  query_url <- build_weather_query city ;;
  weather_data <- get_weather_data decode query_url ;;
  display_weather_info PADDING weather_data.

(** ** Reading a URL back

    The other direction of the Query Builder, as [urllib.parse] does it: the
    query of a URL, its parameters, and their percent-decoding. *)

Module decode.

Definition hex_value (c : ascii) : option Z :=
  let v := byte_val c in
  if (48 <=? v) && (v <=? 57) then Some (v - 48)
  else if (65 <=? v) && (v <=? 70) then Some (v - 55)
  else if (97 <=? v) && (v <=? 102) then Some (v - 87)
  else None.

(** [parse.unquote(string)]: every [%XX] with two hexadecimal digits is
    the byte XX, everything else is kept. *)
Fixpoint unquote (s : string) : string :=
  match s with
  | EmptyString => ""
  | String c rest =>
      if Ascii.eqb c "%" then
        match rest with
        | String h1 (String h2 rest') =>
            match hex_value h1, hex_value h2 with
            | Some a, Some b => String (byte_of (16 * a + b)) (unquote rest')
            | _, _ => String c (unquote rest)
            end
        | _ => String c (unquote rest)
        end
      else String c (unquote rest)
  end.

(** [parse.unquote_plus(string)]. *)
Definition unquote_plus (s : string) : string :=
  unquote (parse.replace_char "+" " " s).

(** [s] cut at the first [c]: what is before it and, if [c] occurs, what is
    after it. *)
Fixpoint split_at (c : ascii) (s : string) : string * option string :=
  match s with
  | EmptyString => ("", None)
  | String a rest =>
      if Ascii.eqb a c then ("", Some rest)
      else let '(before, after) := split_at c rest in (String a before, after)
  end.

(** [s.split(c)]. *)
Fixpoint split (c : ascii) (s : string) : list string :=
  match s with
  | EmptyString => [""]
  | String a rest =>
      if Ascii.eqb a c then "" :: split c rest
      else match split c rest with
           | piece :: pieces => String a piece :: pieces
           | [] => [String a ""]
           end
  end.

(** The query of a URL: what follows the first [?], the fragment after the
    first [#] being dropped first. *)
Definition url_query (url : string) : string :=
  match snd (split_at "?" (fst (split_at "#" url))) with
  | Some query => query
  | None => ""
  end.

(** One [name=value] item of a query, both sides decoded; the item is cut
    at its first [=]. *)
Definition parse_item (item : string) : string * string :=
  let '(name, value) := split_at "=" item in
  (unquote_plus name,
   match value with
   | Some v => unquote_plus v
   | None => ""
   end).

(** [parse.parse_qsl(query, keep_blank_values=True)]. *)
Definition parse_qsl (query : string) : list (string * string) :=
  map parse_item (filter (fun item => negb (String.eqb item "")) (split "&" query)).

Fixpoint lookup_param (name : string) (params : list (string * string)) : option string :=
  match params with
  | [] => None
  | (n, v) :: rest => if String.eqb n name then Some v else lookup_param name rest
  end.

(** The value of the first parameter [name] of the query of [url]. *)
Definition query_param (name url : string) : option string :=
  lookup_param name (parse_qsl (url_query url)).

End decode.

(** ** Contracts and states used in the statements *)

(** The world after one more request has been sent. *)
Definition sent (w : World) (url : string) : World :=
  mkWorld (files w) (server w) (requests w ++ [url]) (stdout w).

(** The Credential Loader by its contract: the option [api_key] of the
    section [openweather] of a configuration file, the defaults standing in
    for an option the section does not have. *)
Definition api_key_of (file : option ini_file) : result string :=
  match file with
  | None => Raised (KeyError (PStr "openweather"))
  | Some Malformed => Raised ConfigParserError
  | Some (Wellformed cfg) =>
      match sections cfg !! "openweather" with
      | None => Raised (KeyError (PStr "openweather"))
      | Some options =>
          match (match options !! "api_key" with
                 | Some v => Some v
                 | None => defaults cfg !! "api_key"
                 end) with
          | Some (Interpolated key) => Returned key
          | Some Uninterpolable => Raised InterpolationError
          | None => Raised (KeyError (PStr "api_key"))
          end
      end
  end.

(** ** Sample inputs *)

(** A world with one answer of the server to every request, nothing sent
    and nothing printed yet. *)
Definition world_with (fs : gmap string ini_file) (a : answer) : World :=
  mkWorld fs (fun _ => a) [] [].

(** A [secrets.ini] with the section [openweather] and its [api_key]. *)
Definition secrets_with_key (key : string) : gmap string ini_file :=
  {[ "secrets.ini" :=
       Wellformed (mkConfig ∅ {[ "openweather" := {[ "api_key" := Interpolated key ]} ]}) ]}.

(** A [secrets.ini] whose section [openweather] has no [api_key]. *)
Definition secrets_without_key : gmap string ini_file :=
  {[ "secrets.ini" := Wellformed (mkConfig ∅ {[ "openweather" := ∅ ]}) ]}.

(** A [secrets.ini] without the section [openweather]. *)
Definition secrets_without_section : gmap string ini_file :=
  {[ "secrets.ini" :=
       Wellformed (mkConfig ∅ {[ "other" := {[ "api_key" := Interpolated "k" ]} ]}) ]}.

(** The response of scenario 1:
    [{"name": "Paris", "weather": [{"id": 800, "description": "clear sky"}],
      "main": {"temp": 18.5}}], where 18.5 is 37 * 2^-1. *)
Definition paris_response : pyval :=
  PDict [ ("name", PStr "Paris");
          ("weather", PList [PDict [("id", PInt 800); ("description", PStr "clear sky")]]);
          ("main", PDict [("temp", PFloat (S754_finite false 37 (-1)))]) ].

(** A decoder that knows one document. *)
Definition decode_only (document : string) (value : pyval) (data : string) : result pyval :=
  if String.eqb data document then Returned value else Raised JSONDecodeError.

(** The body of one byte, 0xFF, which is not UTF-8. *)
Definition not_utf8 : string := String (byte_of 255) "".

(** [json.loads] on three kinds of bodies: the byte 0xFF, which it cannot
    decode as a text, the empty object, and anything else, taken as not
    being a JSON document. *)
Definition decode_sample (data : string) : result pyval :=
  if String.eqb data not_utf8 then Raised UnicodeDecodeError
  else if String.eqb data "{}" then Returned (PDict [])
  else Raised JSONDecodeError.


(** ** Notions used by the further properties *)

(** The sets of codes of weather.py, in the order in which
    [_select_weather_display_params] tests them. *)
Definition code_sets : list codes :=
  [ THUNDERSTORM; DRIZZLE; RAIN; SNOW; MIST; SMOKE; HAZE; DUSTWHRIL; FOG; SAND;
    DUST; ASH; SQUALL; TORNADO; CLEAR; CLOUDY ].

(** The style in effect after an output, [current] being the one before. *)
Fixpoint last_style (out : list terminal_event) (current : option style.color)
  : option style.color :=
  match out with
  | [] => current
  | Style c :: rest => last_style rest (Some c)
  | Text _ :: rest => last_style rest current
  end.

(** Every byte of the string passes the test. *)
Fixpoint all_chars (test : ascii -> bool) (s : string) : bool :=
  match s with
  | EmptyString => true
  | String c rest => test c && all_chars test rest
  end.

(** The exceptions a subscript raises. *)
Definition is_lookup_error (e : exn) : bool :=
  match e with
  | KeyError _ | IndexError | TypeError => true
  | _ => false
  end.

(** The world after [out] has reached the terminal. *)
Definition printed (w : World) (out : list terminal_event) : World :=
  mkWorld (files w) (server w) (requests w) (stdout w ++ out).

(** The URL that [build_weather_query] makes of a key and of city tokens. *)
Definition request_url (api_key : string) (city_input : list string) : string :=
  BASE_WEATHER_API_URL +:+ "?q=" +:+ parse.quote_plus (join " " city_input)
  +:+ "&units=" +:+ "metric" +:+ "&appid=" +:+ api_key.

(** * Properties *)

(** ** The library functions on known values *)

Example capitalize_clear_sky : capitalize "clear sky" = "Clear sky".
Proof. reflexivity. Qed.

Example capitalize_lowers_the_rest : capitalize "pARIS, tx" = "Paris, tx".
Proof. reflexivity. Qed.

Example center_paris : center "Paris" 20 = "       Paris        ".
Proof. reflexivity. Qed.

Example center_too_long : center "Paris" 3 = "Paris".
Proof. reflexivity. Qed.

Example center_counts_code_points : center "São" 5 = " São ".
Proof. reflexivity. Qed.

Example float_repr_18_5 : float_repr (S754_finite false 37 (-1)) = "18.5".
Proof. vm_compute. reflexivity. Qed.

(** 0.1 is 0x1999999999999A * 2^-56. *)
Example float_repr_tenth : float_repr (S754_finite false 7205759403792794 (-56)) = "0.1".
Proof. vm_compute. reflexivity. Qed.

Example float_repr_minus_3 : float_repr (S754_finite true 3 0) = "-3.0".
Proof. vm_compute. reflexivity. Qed.

Example float_repr_1e16 : float_repr (S754_finite false 10000000000000000 0) = "1e+16".
Proof. vm_compute. reflexivity. Qed.

Example float_repr_least : float_repr (S754_finite false 1 (-1074)) = "5e-324".
Proof. vm_compute. reflexivity. Qed.

Example int_str_minus_7 : int_str (-7) = "-7".
Proof. reflexivity. Qed.

Example quote_plus_new_york : parse.quote_plus "New York" = "New+York".
Proof. reflexivity. Qed.

Example quote_plus_reserved : parse.quote_plus "a&b=c d+e/~" = "a%26b%3Dc+d%2Be%2F~".
Proof. reflexivity. Qed.

Example quote_plus_utf8 : parse.quote_plus "São Paulo" = "S%C3%A3o+Paulo".
Proof. reflexivity. Qed.

Example unquote_plus_keeps_bad_escapes : decode.unquote_plus "100%+%zz+%4" = "100% %zz %4".
Proof. reflexivity. Qed.

Example select_of_float_code :
  _select_weather_display_params (PFloat (S754_finite false 1600 (-1)))
  = _select_weather_display_params (PInt 800).
Proof. reflexivity. Qed.

Example select_of_none : _select_weather_display_params PNone = fallback_params.
Proof. reflexivity. Qed.

(** Scenario 1 at the Display Formatter, with fields of 20 characters. *)
Example display_paris_20 :
  stdout (snd (display_weather_info 20 paris_response (world_with ∅ Unreachable)))
  = [ Style style.REVERSE;
      Text "       Paris        ";
      Style style.RESET;
      Style style.YELLOW;
      Text (TAB +:+ "â˜€ï¸ ");
      Text (TAB +:+ "     Clear sky       ");
      Style style.RESET;
      Text "(18.5Â°C)" ].
Proof. vm_compute. reflexivity. Qed.

(** A description that is not a string stops the line after the symbol. *)
Example display_description_not_a_string :
  display_weather_info 20
    (PDict [ ("name", PStr "Paris");
             ("weather", PList [PDict [("id", PInt 800); ("description", PNone)]]);
             ("main", PDict [("temp", PInt 18)]) ])
    (world_with ∅ Unreachable)
  = (Raised AttributeError,
     mkWorld ∅ (fun _ => Unreachable) []
       [ Style style.REVERSE; Text "       Paris        "; Style style.RESET;
         Style style.YELLOW; Text (TAB +:+ "â˜€ï¸ ") ]).
Proof. vm_compute. reflexivity. Qed.

(** ** The Display Formatter's table *)

Ltac decide_comparisons :=
  repeat match goal with
    | |- context [?a <=? ?b] => destruct (Z.leb_spec a b); try lia; simpl
    | |- context [?a <? ?b] => destruct (Z.ltb_spec a b); try lia; simpl
    | |- context [?a =? ?b] => destruct (Z.eqb_spec a b); try lia; simpl
    end.

Lemma select_first_match (v : pyval) :
  _select_weather_display_params v =
  match first_match display_table v with
  | Some params => params
  | None => fallback_params
  end.
Proof.
  unfold _select_weather_display_params, display_table, first_match,
    THUNDERSTORM, DRIZZLE, RAIN, SNOW, MIST, SMOKE, HAZE, DUSTWHRIL, FOG, SAND,
    DUST, ASH, SQUALL, TORNADO, CLEAR, CLOUDY, fallback_params.
  unfold py_in.
  destruct (int_value v) as [n|]; [|reflexivity].
  cbn [existsb orb].
  decide_comparisons; reflexivity.
Qed.

Lemma first_match_row (code : Z) (row : codes * (string * style.color)) :
  In row display_table -> in_codes code (fst row) ->
  first_match display_table (PInt code) = Some (snd row).
Proof.
  intros Hrow Hcode. unfold display_table in *. simpl in Hrow.
  repeat (destruct Hrow as [<- | Hrow]; [
    simpl in Hcode; unfold first_match, py_in, int_value; cbn [existsb orb];
    decide_comparisons; reflexivity |]).
  contradiction.
Qed.

Lemma unlisted_no_match (code : Z) :
  unlisted code -> first_match display_table (PInt code) = None.
Proof.
  intros H.
  assert (Hall : Forall (fun row => ~ in_codes code (fst row)) display_table)
    by (apply Forall_forall; exact H).
  unfold display_table in Hall.
  repeat match goal with
    | Hf : Forall _ (_ :: _) |- _ =>
        let Hrow := fresh "Hrow" in
        let Hrest := fresh "Hrest" in
        apply Forall_cons_iff in Hf; destruct Hf as [Hrow Hrest]; simpl in Hrow
    end.
  unfold display_table, first_match, py_in, int_value; cbn [existsb orb].
  decide_comparisons; reflexivity.
Qed.

(** C1. For a weather code in the range or equal to the exact code of a row
    of the table (thunderstorm [200,300), drizzle [300,400), rain [500,600),
    snow [600,700), the exact codes 701 to 781, the exact code 800 for
    Clear, [801,900) for Cloudy), that row is the first one of the table, in
    its order, that holds the code, and [_select_weather_display_params]
    returns the (symbol, color) pair of that row. *)
Theorem select_weather_display_params_row
    (code : Z) (row : codes * (string * style.color)) :
  In row display_table ->
  in_codes code (fst row) ->
  first_match display_table (PInt code) = Some (snd row) /\
  _select_weather_display_params (PInt code) = snd row.
Proof.
  intros Hrow Hcode.
  pose proof (first_match_row code row Hrow Hcode) as Hfirst.
  split; [exact Hfirst |].
  rewrite select_first_match, Hfirst. reflexivity.
Qed.

(** C1 at the boundary: code 800 selects the pair of Clear, code 801 the
    pair of Cloudy; and code 250 selects the pair of Thunderstorm. *)
Lemma select_weather_display_params_row_witness :
  _select_weather_display_params (PInt 800) = ("â˜€ï¸", style.YELLOW) /\
  _select_weather_display_params (PInt 801) = ("â›…", style.WHITE) /\
  _select_weather_display_params (PInt 250) = ("â›ˆï¸", style.RED).
Proof.
  split; [| split].
  - apply (select_weather_display_params_row 800 (tuple [800], ("â˜€ï¸", style.YELLOW))).
    + simpl. do 14 right. left. reflexivity.
    + simpl. left. reflexivity.
  - apply (select_weather_display_params_row 801 (range 801 900, ("â›…", style.WHITE))).
    + simpl. do 15 right. left. reflexivity.
    + simpl. lia.
  - apply (select_weather_display_params_row 250 (range 200 300, ("â›ˆï¸", style.RED))).
    + simpl. left. reflexivity.
    + simpl. lia.
Defined.





(** ** Strings *)

Lemma starts_with_app (p s : string) : starts_with p (p +:+ s) = true.
Proof.
  induction p as [|c p IH]; simpl.
  - reflexivity.
  - rewrite Ascii.eqb_refl. exact IH.
Qed.

Lemma contains_app (needle before after : string) :
  contains needle (before +:+ needle +:+ after) = true.
Proof.
  induction before as [|c before IH].
  - change ("" +:+ needle +:+ after) with (needle +:+ after).
    destruct (needle +:+ after) eqn:E; simpl; rewrite <- E, starts_with_app; reflexivity.
  - change (String c before +:+ needle +:+ after)
      with (String c (before +:+ needle +:+ after)).
    simpl. rewrite IH. apply orb_true_r.
Qed.

Lemma app_cons (x : ascii) (a b : string) : String x a +:+ b = String x (a +:+ b).
Proof. reflexivity. Qed.

Lemma app_empty_l (a : string) : "" +:+ a = a.
Proof. reflexivity. Qed.

Lemma app_assoc_string (a b c : string) : (a +:+ b) +:+ c = a +:+ b +:+ c.
Proof.
  induction a as [|x a IH]; [reflexivity |].
  rewrite !app_cons, IH. reflexivity.
Qed.

Lemma app_empty_r (a : string) : a +:+ "" = a.
Proof.
  induction a as [|x a IH]; [reflexivity |].
  rewrite app_cons, IH. reflexivity.
Qed.

(** ** The Weather Fetcher *)

(** C2. When the server answers the request with an HTTP error status,
    [get_weather_data] ends the process with [sys.exit] and so with a
    non-zero status, and the message is fixed by the status: the access
    message for 401, the unknown-city message for 404, and for every other
    status a message that holds the status in decimal.  One request has been
    sent, and only one. *)
Theorem get_weather_data_http_error
    (decode : string -> result pyval) (query_url : string) (w : World) (status : Z) :
  server w query_url = Failure status ->
  exists message : string,
    get_weather_data decode query_url w = (Raised (SystemExit message), sent w query_url) /\
    exit_status (fst (get_weather_data decode query_url w)) <> 0 /\
    requests (snd (get_weather_data decode query_url w)) = (requests w ++ [query_url])%list /\
    (status = 401 -> message = "Access denied. Check your API key.") /\
    (status = 404 -> message = "Can't find weather data for this city.") /\
    (status <> 401 -> status <> 404 ->
       message = "Something went wrong... (" +:+ int_str status +:+ ")" /\
       contains (int_str status) message = true).
Proof.
  intros Hserver.
  assert (Hrun : get_weather_data decode query_url w =
                 (Raised (SystemExit
                    (if status =? 401 then "Access denied. Check your API key."
                     else if status =? 404 then "Can't find weather data for this city."
                     else "Something went wrong... (" +:+ int_str status +:+ ")")),
                  sent w query_url)).
  { unfold get_weather_data, bind, try_except, request.urlopen.
    rewrite Hserver.
    destruct (status =? 401); [reflexivity |].
    destruct (status =? 404); reflexivity. }
  eexists. split; [exact Hrun |].
  rewrite Hrun. simpl.
  split; [discriminate |]. split; [reflexivity |].
  split; [| split].
  - intros ->. reflexivity.
  - intros ->. reflexivity.
  - intros H401 H404.
    destruct (Z.eqb_spec status 401) as [|_]; [contradiction |].
    destruct (Z.eqb_spec status 404) as [|_]; [contradiction |].
    split; [reflexivity |]. apply contains_app.
Qed.

Lemma get_weather_data_response
    (decode : string -> result pyval) (query_url body : string) (w : World) :
  server w query_url = Success body ->
  get_weather_data decode query_url w =
    (match decode body with
     | Returned value => Returned value
     | Raised JSONDecodeError => Raised (SystemExit "Couldn't read the server response.")
     | Raised e => Raised e
     end, sent w query_url).
Proof.
  intros Hserver.
  unfold get_weather_data, bind, try_except, request.urlopen, request.read, json.loads, lift.
  rewrite Hserver. simpl.
  destruct (decode body) as [value | []]; reflexivity.
Qed.

(** C6 on the code. When the server answers with a response,
    [get_weather_data] hands the whole body to [json.loads] and returns the
    value it returns; when [json.loads] raises [JSONDecodeError], the
    process ends with the message about the server response. But that is
    the only exception the handler takes: any other exception of
    [json.loads], such as [UnicodeDecodeError] for a body that is not
    UTF-8, leaves [get_weather_data] uncaught, and the process ends without
    the message although the body could not be parsed. *)
Theorem get_weather_data_body_outcomes
    (decode : string -> result pyval) (query_url body : string) (w : World) :
  server w query_url = Success body ->
  (forall value : pyval,
     decode body = Returned value ->
     get_weather_data decode query_url w = (Returned value, sent w query_url)) /\
  (decode body = Raised JSONDecodeError ->
   get_weather_data decode query_url w
   = (Raised (SystemExit "Couldn't read the server response."), sent w query_url)) /\
  (forall e : exn,
     decode body = Raised e -> e <> JSONDecodeError ->
     get_weather_data decode query_url w = (Raised e, sent w query_url)).
Proof.
  intros Hserver.
  rewrite (get_weather_data_response decode query_url body w Hserver).
  split; [| split].
  - intros value ->. reflexivity.
  - intros ->. reflexivity.
  - intros e -> He. destruct e; try reflexivity. contradiction He. reflexivity.
Qed.

(** C2 run on three servers: status 401, status 404, status 503. *)
Lemma get_weather_data_http_error_witness :
  fst (get_weather_data (fun _ => Raised JSONDecodeError) "u" (world_with ∅ (Failure 401)))
    = Raised (SystemExit "Access denied. Check your API key.") /\
  fst (get_weather_data (fun _ => Raised JSONDecodeError) "u" (world_with ∅ (Failure 404)))
    = Raised (SystemExit "Can't find weather data for this city.") /\
  get_weather_data (fun _ => Raised JSONDecodeError) "u" (world_with ∅ (Failure 503))
    = (Raised (SystemExit "Something went wrong... (503)"),
       mkWorld ∅ (fun _ => Failure 503) ["u"] []).
Proof.
  split; [| split].
  - destruct (get_weather_data_http_error (fun _ => Raised JSONDecodeError) "u"
                (world_with ∅ (Failure 401)) 401 eq_refl)
      as (message & Hrun & _ & _ & H401 & _).
    rewrite Hrun, (H401 eq_refl). reflexivity.
  - destruct (get_weather_data_http_error (fun _ => Raised JSONDecodeError) "u"
                (world_with ∅ (Failure 404)) 404 eq_refl)
      as (message & Hrun & _ & _ & _ & H404 & _).
    rewrite Hrun, (H404 eq_refl). reflexivity.
  - destruct (get_weather_data_http_error (fun _ => Raised JSONDecodeError) "u"
                (world_with ∅ (Failure 503)) 503 eq_refl)
      as (message & Hrun & _ & _ & _ & _ & Hother).
    rewrite Hrun.
    destruct Hother as [-> _]; [lia | lia |]. reflexivity.
Defined.

(** C6 at the failing input, a response whose body is the byte 0xFF: the
    process ends with [UnicodeDecodeError] and not with the message; a body
    that is a text but no JSON document ends with the message, and the empty
    object is returned. *)
Lemma get_weather_data_body_outcomes_witness :
  get_weather_data decode_sample "u" (world_with ∅ (Success not_utf8))
    = (Raised UnicodeDecodeError, mkWorld ∅ (fun _ => Success not_utf8) ["u"] []) /\
  fst (get_weather_data decode_sample "u" (world_with ∅ (Success not_utf8)))
    <> Raised (SystemExit "Couldn't read the server response.") /\
  fst (get_weather_data decode_sample "u" (world_with ∅ (Success "<html>")))
    = Raised (SystemExit "Couldn't read the server response.") /\
  fst (get_weather_data decode_sample "u" (world_with ∅ (Success "{}")))
    = Returned (PDict []).
Proof.
  destruct (get_weather_data_body_outcomes decode_sample "u" not_utf8
              (world_with ∅ (Success not_utf8)) eq_refl) as (_ & _ & Hother).
  destruct (get_weather_data_body_outcomes decode_sample "u" "<html>"
              (world_with ∅ (Success "<html>")) eq_refl) as (_ & Hjson & _).
  destruct (get_weather_data_body_outcomes decode_sample "u" "{}"
              (world_with ∅ (Success "{}")) eq_refl) as (Hvalue & _).
  rewrite (Hother UnicodeDecodeError eq_refl) by discriminate.
  rewrite (Hjson eq_refl), (Hvalue (PDict []) eq_refl).
  split; [reflexivity |]. split; [discriminate |]. split; reflexivity.
Defined.

(** ** The Credential Loader *)

Lemma get_api_key_run (w : World) :
  _get_api_key w = (api_key_of (files w !! "secrets.ini"), w).
Proof.
  unfold _get_api_key, api_key_of, bind, configparser.read, configparser.section,
    configparser.option_value, ret, raise.
  destruct (files w !! "secrets.ini") as [[|cfg]|] eqn:Hfile; simpl.
  - reflexivity.
  - destruct (sections cfg !! "openweather") as [options|] eqn:Hsection; simpl;
      [| reflexivity].
    rewrite Hsection.
    destruct (options !! "api_key") as [[?|]|] eqn:Hkey; simpl; try reflexivity.
    destruct (defaults cfg !! "api_key") as [[?|]|]; reflexivity.
  - rewrite lookup_empty. reflexivity.
Qed.

Lemma get_api_key_pure (w : World) : snd (_get_api_key w) = w.
Proof. rewrite get_api_key_run. reflexivity. Qed.

Lemma build_weather_query_run (city_input : list string) (w : World) :
  build_weather_query city_input w =
  (match fst (_get_api_key w) with
   | Returned api_key =>
       Returned (BASE_WEATHER_API_URL +:+ "?q=" +:+ parse.quote_plus (join " " city_input)
                 +:+ "&units=" +:+ "metric" +:+ "&appid=" +:+ api_key)
   | Raised e => Raised e
   end, w).
Proof.
  unfold build_weather_query, bind. rewrite (get_api_key_run w). simpl.
  destruct (api_key_of (files w !! "secrets.ini")); reflexivity.
Qed.

Lemma main_without_key
    (decode : string -> result pyval) (PADDING : nat) (city : list string)
    (w : World) (e : exn) :
  fst (_get_api_key w) = Raised e -> main decode PADDING city w = (Raised e, w).
Proof.
  intros H. unfold main, bind. rewrite build_weather_query_run, H. reflexivity.
Qed.

(** C8. [_get_api_key] reads the option [api_key] of the section
    [openweather] of [secrets.ini] and changes nothing.  When the file is
    not there, when it has no such section, or when neither the section nor
    the defaults have the option, the lookup fails with [KeyError]; nothing
    catches it, so the program ends with it and a non-zero status before
    any request or output. *)
Theorem get_api_key_contract (w : World) :
  snd (_get_api_key w) = w /\
  (forall (cfg : config) (options : gmap string ini_value) (key : string),
     files w !! "secrets.ini" = Some (Wellformed cfg) ->
     sections cfg !! "openweather" = Some options ->
     options !! "api_key" = Some (Interpolated key) ->
     fst (_get_api_key w) = Returned key) /\
  (files w !! "secrets.ini" = None ->
     fst (_get_api_key w) = Raised (KeyError (PStr "openweather"))) /\
  (forall cfg : config,
     files w !! "secrets.ini" = Some (Wellformed cfg) ->
     sections cfg !! "openweather" = None ->
     fst (_get_api_key w) = Raised (KeyError (PStr "openweather"))) /\
  (forall (cfg : config) (options : gmap string ini_value),
     files w !! "secrets.ini" = Some (Wellformed cfg) ->
     sections cfg !! "openweather" = Some options ->
     options !! "api_key" = None ->
     defaults cfg !! "api_key" = None ->
     fst (_get_api_key w) = Raised (KeyError (PStr "api_key"))) /\
  (forall (key : pyval) (decode : string -> result pyval) (PADDING : nat)
          (city : list string),
     fst (_get_api_key w) = Raised (KeyError key) ->
     main decode PADDING city w = (Raised (KeyError key), w) /\
     exit_status (fst (main decode PADDING city w)) <> 0).
Proof.
  split; [apply get_api_key_pure |].
  repeat split.
  - intros cfg options key Hfile Hsection Hkey.
    rewrite get_api_key_run, Hfile. simpl. rewrite Hsection, Hkey. reflexivity.
  - intros Hfile. rewrite get_api_key_run, Hfile. reflexivity.
  - intros cfg Hfile Hsection.
    rewrite get_api_key_run, Hfile. simpl. rewrite Hsection. reflexivity.
  - intros cfg options Hfile Hsection Hkey Hdefault.
    rewrite get_api_key_run, Hfile. simpl. rewrite Hsection, Hkey, Hdefault. reflexivity.
  - apply main_without_key. assumption.
  - rewrite (main_without_key decode PADDING city w (KeyError key)) by assumption.
    simpl. discriminate.
Qed.

(** C8 on four configurations: the key present, no file, no section, no
    option; and the whole program without the file. *)
Lemma get_api_key_contract_witness :
  fst (_get_api_key (world_with (secrets_with_key "abc123") Unreachable)) = Returned "abc123" /\
  fst (_get_api_key (world_with ∅ Unreachable)) = Raised (KeyError (PStr "openweather")) /\
  fst (_get_api_key (world_with secrets_without_section Unreachable))
    = Raised (KeyError (PStr "openweather")) /\
  fst (_get_api_key (world_with secrets_without_key Unreachable))
    = Raised (KeyError (PStr "api_key")) /\
  main (fun _ => Raised JSONDecodeError) 20 ["Paris"] (world_with ∅ Unreachable)
    = (Raised (KeyError (PStr "openweather")), world_with ∅ Unreachable).
Proof.
  split; [| split; [| split; [| split]]].
  - destruct (get_api_key_contract (world_with (secrets_with_key "abc123") Unreachable))
      as (_ & Hkey & _).
    apply (Hkey (mkConfig ∅ {[ "openweather" := {[ "api_key" := Interpolated "abc123" ]} ]})
                {[ "api_key" := Interpolated "abc123" ]}); vm_compute; reflexivity.
  - destruct (get_api_key_contract (world_with ∅ Unreachable)) as (_ & _ & Hfile & _).
    apply Hfile. vm_compute. reflexivity.
  - destruct (get_api_key_contract (world_with secrets_without_section Unreachable))
      as (_ & _ & _ & Hsection & _).
    apply (Hsection (mkConfig ∅ {[ "other" := {[ "api_key" := Interpolated "k" ]} ]}));
      vm_compute; reflexivity.
  - destruct (get_api_key_contract (world_with secrets_without_key Unreachable))
      as (_ & _ & _ & _ & Hoption & _).
    apply (Hoption (mkConfig ∅ {[ "openweather" := ∅ ]}) ∅); vm_compute; reflexivity.
  - destruct (get_api_key_contract (world_with ∅ Unreachable)) as (_ & _ & _ & _ & _ & Hmain).
    apply Hmain. vm_compute. reflexivity.
Defined.

(** ** The Query Builder *)

(** C7. For a fixed list of city tokens and a fixed API key,
    [build_weather_query] returns the same URL in any two worlds in which
    that key is loaded, and leaves each world as it was: a second invocation
    after the first gives the same URL again. *)
Theorem build_weather_query_deterministic
    (city_input : list string) (api_key : string) (w1 w2 : World) :
  fst (_get_api_key w1) = Returned api_key ->
  fst (_get_api_key w2) = Returned api_key ->
  exists url : string,
    build_weather_query city_input w1 = (Returned url, w1) /\
    build_weather_query city_input w2 = (Returned url, w2) /\
    build_weather_query city_input (snd (build_weather_query city_input w1))
      = (Returned url, w1).
Proof.
  intros H1 H2.
  rewrite get_api_key_run in H1, H2. cbn [fst] in H1, H2.
  eexists. rewrite !build_weather_query_run, !get_api_key_run. cbn [fst snd].
  rewrite H1, H2.
  repeat split; reflexivity.
Qed.

(** C7 run twice in a row, and in two worlds that differ in everything but
    the key. *)
Lemma build_weather_query_deterministic_witness :
  exists url : string,
    build_weather_query ["New"; "York"] (world_with (secrets_with_key "abc123") Unreachable)
      = (Returned url, world_with (secrets_with_key "abc123") Unreachable) /\
    build_weather_query ["New"; "York"]
      (mkWorld (secrets_with_key "abc123") (fun _ => Success "{}") ["earlier"] [Text "x"])
      = (Returned url,
         mkWorld (secrets_with_key "abc123") (fun _ => Success "{}") ["earlier"] [Text "x"]) /\
    build_weather_query ["New"; "York"]
      (snd (build_weather_query ["New"; "York"]
              (world_with (secrets_with_key "abc123") Unreachable)))
      = (Returned url, world_with (secrets_with_key "abc123") Unreachable).
Proof.
  apply (build_weather_query_deterministic ["New"; "York"] "abc123").
  - vm_compute. reflexivity.
  - vm_compute. reflexivity.
Defined.

(** *** Percent-encoding and back *)

Lemma mem_char_app (x : ascii) (a b : string) :
  mem_char x (a +:+ b) = mem_char x a || mem_char x b.
Proof.
  induction a as [|c a IH]; [reflexivity |].
  rewrite app_cons. simpl. rewrite IH. apply orb_assoc.
Qed.

Lemma hex_roundtrip (c : ascii) :
  decode.hex_value (hex_digit (byte_val c / 16)) = Some (byte_val c / 16) /\
  decode.hex_value (hex_digit (byte_val c mod 16)) = Some (byte_val c mod 16) /\
  byte_of (16 * (byte_val c / 16) + byte_val c mod 16) = c.
Proof.
  destruct c as [[] [] [] [] [] [] [] []]; vm_compute; repeat split; reflexivity.
Qed.

Lemma hex_digit_safe (c : ascii) :
  parse.always_safe (hex_digit (byte_val c / 16)) = true /\
  parse.always_safe (hex_digit (byte_val c mod 16)) = true.
Proof.
  destruct c as [[] [] [] [] [] [] [] []]; vm_compute; split; reflexivity.
Qed.

Lemma unquote_percent (h1 h2 : ascii) (a b : Z) (rest : string) :
  decode.hex_value h1 = Some a -> decode.hex_value h2 = Some b ->
  decode.unquote (String "%" (String h1 (String h2 rest)))
  = String (byte_of (16 * a + b)) (decode.unquote rest).
Proof. intros Ha Hb. simpl. rewrite Ha, Hb. reflexivity. Qed.

Lemma unquote_plain (c : ascii) (rest : string) :
  Ascii.eqb c "%" = false ->
  decode.unquote (String c rest) = String c (decode.unquote rest).
Proof. intros H. simpl. rewrite H. reflexivity. Qed.

Lemma unquote_quote (safe s : string) :
  mem_char "%" safe = false -> decode.unquote (parse.quote s safe) = s.
Proof.
  intros Hsafe. induction s as [|c s IH]; [reflexivity |].
  simpl. unfold parse.quote_byte.
  destruct (parse.always_safe c || mem_char c safe) eqn:Hkept.
  - rewrite app_cons, app_empty_l, unquote_plain, IH; [reflexivity |].
    destruct (Ascii.eqb_spec c "%") as [-> |]; [| reflexivity].
    rewrite Hsafe in Hkept. discriminate Hkept.
  - destruct (hex_roundtrip c) as (Hhi & Hlo & Hbyte).
    rewrite !app_cons, app_empty_l, (unquote_percent _ _ _ _ _ Hhi Hlo), Hbyte, IH.
    reflexivity.
Qed.

Lemma mem_char_quote (x : ascii) (safe s : string) :
  parse.always_safe x = false -> mem_char x safe = false -> x <> "%"%char ->
  mem_char x (parse.quote s safe) = false.
Proof.
  intros Hx Hsafe Hpercent. induction s as [|c s IH]; [reflexivity |].
  simpl. rewrite mem_char_app, IH, orb_false_r. unfold parse.quote_byte.
  destruct (parse.always_safe c || mem_char c safe) eqn:Hkept.
  - cbn [mem_char]. rewrite orb_false_r.
    destruct (Ascii.eqb_spec c x) as [-> |]; [| reflexivity].
    rewrite Hx, Hsafe in Hkept. discriminate Hkept.
  - destruct (hex_digit_safe c) as (Hhi & Hlo).
    assert (E1 : Ascii.eqb "%" x = false) by (apply Ascii.eqb_neq; congruence).
    assert (E2 : Ascii.eqb (hex_digit (byte_val c / 16)) x = false).
    { apply Ascii.eqb_neq. intros E. rewrite E, Hx in Hhi. discriminate Hhi. }
    assert (E3 : Ascii.eqb (hex_digit (byte_val c mod 16)) x = false).
    { apply Ascii.eqb_neq. intros E. rewrite E, Hx in Hlo. discriminate Hlo. }
    cbn [mem_char]. rewrite E1, E2, E3. reflexivity.
Qed.

Lemma replace_char_absent (a b : ascii) (s : string) :
  mem_char a s = false -> parse.replace_char a b s = s.
Proof.
  induction s as [|c s IH]; [reflexivity |].
  simpl. intros H. apply orb_false_iff in H as [Hc Hs].
  rewrite Hc, (IH Hs). reflexivity.
Qed.

Lemma replace_char_back (a b : ascii) (s : string) :
  mem_char b s = false -> parse.replace_char b a (parse.replace_char a b s) = s.
Proof.
  induction s as [|c s IH]; [reflexivity |].
  simpl. intros H. apply orb_false_iff in H as [Hc Hs]. rewrite (IH Hs).
  destruct (Ascii.eqb_spec c a) as [-> |].
  - rewrite Ascii.eqb_refl. reflexivity.
  - rewrite Hc. reflexivity.
Qed.

Lemma mem_char_replace (x a b : ascii) (s : string) :
  x <> b -> mem_char x s = false -> mem_char x (parse.replace_char a b s) = false.
Proof.
  intros Hb. induction s as [|c s IH]; [reflexivity |].
  simpl. intros H. apply orb_false_iff in H as [Hc Hs]. rewrite (IH Hs), orb_false_r.
  destruct (Ascii.eqb c a); [| exact Hc].
  destruct (Ascii.eqb_spec b x) as [E |]; [symmetry in E; contradiction | reflexivity].
Qed.

(** Decoding what [quote_plus] encoded gives the string back. *)
Lemma unquote_plus_quote_plus (s : string) :
  decode.unquote_plus (parse.quote_plus s) = s.
Proof.
  unfold decode.unquote_plus, parse.quote_plus.
  destruct (mem_char " " s); simpl.
  - rewrite replace_char_back.
    + apply unquote_quote. reflexivity.
    + apply mem_char_quote; [reflexivity | reflexivity | discriminate].
  - rewrite replace_char_absent.
    + apply unquote_quote. reflexivity.
    + apply mem_char_quote; [reflexivity | reflexivity | discriminate].
Qed.

(** No character that is reserved in a URL survives [quote_plus]. *)
Lemma mem_char_quote_plus (x : ascii) (s : string) :
  parse.always_safe x = false -> x <> "%"%char -> x <> "+"%char -> x <> " "%char ->
  mem_char x (parse.quote_plus s) = false.
Proof.
  intros Hx Hpercent Hplus Hspace. unfold parse.quote_plus.
  destruct (mem_char " " s); simpl.
  - apply mem_char_replace; [exact Hplus |].
    apply mem_char_quote; [exact Hx | | exact Hpercent].
    assert (E : Ascii.eqb " " x = false) by (apply Ascii.eqb_neq; congruence).
    cbn [mem_char]. rewrite E. reflexivity.
  - apply mem_char_quote; [exact Hx | reflexivity | exact Hpercent].
Qed.

(** *** The parameters of the URL *)

Lemma split_at_app (c : ascii) (a b : string) :
  mem_char c a = false ->
  decode.split_at c (a +:+ b)
  = (a +:+ fst (decode.split_at c b), snd (decode.split_at c b)).
Proof.
  induction a as [|x a IH]; intros H.
  - rewrite !app_empty_l. destruct (decode.split_at c b). reflexivity.
  - cbn [mem_char] in H. apply orb_false_iff in H as [Hx Ha].
    rewrite !app_cons. cbn [decode.split_at]. rewrite Hx, (IH Ha). reflexivity.
Qed.

Lemma split_at_hit (c : ascii) (a b : string) :
  mem_char c a = false ->
  decode.split_at c (a +:+ String c b) = (a, Some b).
Proof.
  intros H. rewrite (split_at_app c a _ H). cbn [decode.split_at].
  rewrite Ascii.eqb_refl. cbn [fst snd]. rewrite app_empty_r. reflexivity.
Qed.

Lemma split_at_length (c : ascii) (s : string) :
  (String.length (fst (decode.split_at c s)) <= String.length s)%nat /\
  (mem_char c s = true ->
   (String.length (fst (decode.split_at c s)) < String.length s)%nat) /\
  (mem_char c s = false -> fst (decode.split_at c s) = s).
Proof.
  induction s as [|x s (IHle & IHlt & IHeq)].
  - split; [simpl; lia | split; [discriminate | reflexivity]].
  - cbn [decode.split_at mem_char].
    destruct (Ascii.eqb x c).
    + split; [simpl; lia | split; [simpl; lia | discriminate]].
    + destruct (decode.split_at c s) as [before after]. cbn [fst] in *.
      rewrite orb_false_l. split; [simpl; lia | split].
      * intros H. specialize (IHlt H). simpl. lia.
      * intros H. rewrite (IHeq H). reflexivity.
Qed.

Lemma split_head (c : ascii) (s : string) :
  exists pieces, decode.split c s = fst (decode.split_at c s) :: pieces.
Proof.
  induction s as [|x s [pieces IH]].
  - exists []. reflexivity.
  - cbn [decode.split decode.split_at]. destruct (Ascii.eqb x c).
    + eexists. reflexivity.
    + rewrite IH. destruct (decode.split_at c s). eexists. reflexivity.
Qed.

Lemma split_app (c : ascii) (a b : string) :
  mem_char c a = false ->
  decode.split c (a +:+ String c b) = a :: decode.split c b.
Proof.
  induction a as [|x a IH]; intros H.
  - rewrite app_empty_l. cbn [decode.split]. rewrite Ascii.eqb_refl. reflexivity.
  - cbn [mem_char] in H. apply orb_false_iff in H as [Hx Ha].
    rewrite app_cons. cbn [decode.split]. rewrite Hx, (IH Ha). reflexivity.
Qed.

Lemma split_prefix (c : ascii) (a b : string) :
  mem_char c a = false ->
  exists pieces,
    decode.split c (a +:+ b) = (a +:+ fst (decode.split_at c b)) :: pieces.
Proof.
  intros H. destruct (split_head c (a +:+ b)) as [pieces Hsplit].
  exists pieces. rewrite Hsplit, (split_at_app c a b H). reflexivity.
Qed.

Lemma unquote_length (s : string) :
  (String.length (decode.unquote s) <= String.length s)%nat.
Proof.
  assert (H : forall n s, (String.length s <= n)%nat ->
                          (String.length (decode.unquote s) <= String.length s)%nat).
  { clear s. induction n as [|n IH]; intros s Hn.
    - destruct s; [simpl; lia | simpl in Hn; lia].
    - destruct s as [|c s]; [simpl; lia |].
      assert (Hs : (String.length (decode.unquote s) <= String.length s)%nat)
        by (apply IH; simpl in Hn; lia).
      cbn [decode.unquote]. destruct (Ascii.eqb c "%"); [| simpl; lia].
      destruct s as [|h1 [|h2 rest]]; [simpl; lia | simpl in *; lia |].
      destruct (decode.hex_value h1); [| simpl in *; lia].
      destruct (decode.hex_value h2); [| simpl in *; lia].
      assert (Hrest : (String.length (decode.unquote rest) <= String.length rest)%nat)
        by (apply IH; simpl in Hn; lia).
      simpl. lia. }
  apply (H (String.length s)). lia.
Qed.

Lemma replace_char_length (a b : ascii) (s : string) :
  String.length (parse.replace_char a b s) = String.length s.
Proof. induction s as [|c s IH]; [reflexivity | simpl; rewrite IH; reflexivity]. Qed.

Lemma unquote_plus_length (s : string) :
  (String.length (decode.unquote_plus s) <= String.length s)%nat.
Proof.
  unfold decode.unquote_plus.
  pose proof (unquote_length (parse.replace_char "+" " " s)) as H.
  rewrite replace_char_length in H. exact H.
Qed.

Lemma parse_item_named (name value : string) :
  mem_char "=" name = false ->
  decode.parse_item (name +:+ String "=" value)
  = (decode.unquote_plus name, decode.unquote_plus value).
Proof.
  intros H. unfold decode.parse_item. rewrite (split_at_hit "=" name value H). reflexivity.
Qed.

Lemma item_not_empty (name value : string) :
  negb (String.eqb (name +:+ String "=" value) "") = true.
Proof. destruct name; reflexivity. Qed.

(** The parameters of a URL of the Query Builder, read back: the city as
    encoded, the units, and the key up to its first [&] or [#]. *)
Lemma query_params (enc key : string) :
  mem_char "#" enc = false -> mem_char "&" enc = false ->
  exists others,
    decode.parse_qsl
      (decode.url_query (BASE_WEATHER_API_URL +:+ "?q=" +:+ enc +:+ "&units=" +:+ "metric"
                         +:+ "&appid=" +:+ key))
    = ("q", decode.unquote_plus enc) :: ("units", "metric")
      :: ("appid", decode.unquote_plus
                     (fst (decode.split_at "&" (fst (decode.split_at "#" key)))))
      :: others.
Proof.
  intros Hhash Hamp. unfold decode.url_query.
  set (k1 := fst (decode.split_at "#" key)).
  replace (BASE_WEATHER_API_URL +:+ "?q=" +:+ enc +:+ "&units=" +:+ "metric"
           +:+ "&appid=" +:+ key)
    with ((BASE_WEATHER_API_URL +:+ "?q=" +:+ enc +:+ "&units=metric&appid=") +:+ key)
    by (rewrite !app_assoc_string; reflexivity).
  rewrite split_at_app
    by (rewrite !mem_char_app, Hhash; reflexivity).
  cbn [fst]. fold k1.
  replace ((BASE_WEATHER_API_URL +:+ "?q=" +:+ enc +:+ "&units=metric&appid=") +:+ k1)
    with (BASE_WEATHER_API_URL
          +:+ String "?" (("q" +:+ String "=" enc)
                          +:+ String "&" ("units" +:+ String "=" "metric"
                                          +:+ String "&" ("appid=" +:+ k1))))
    by (rewrite !app_assoc_string; reflexivity).
  rewrite split_at_hit by reflexivity. cbn [snd].
  unfold decode.parse_qsl.
  rewrite split_app by (rewrite mem_char_app; cbn [mem_char]; rewrite Hamp; reflexivity).
  change ("units" +:+ String "=" "metric" +:+ String "&" ("appid=" +:+ k1))
    with (("units" +:+ String "=" "metric") +:+ String "&" ("appid=" +:+ k1)).
  rewrite split_app by reflexivity.
  destruct (split_prefix "&" "appid=" k1 eq_refl) as [pieces Hpieces].
  rewrite Hpieces.
  change ("appid=" +:+ fst (decode.split_at "&" k1))
    with ("appid" +:+ String "=" (fst (decode.split_at "&" k1))).
  cbn [filter]. rewrite !item_not_empty. cbn [map].
  rewrite !parse_item_named by reflexivity.
  eexists. reflexivity.
Qed.

Lemma quote_plus_clean (s : string) :
  mem_char "#" (parse.quote_plus s) = false /\ mem_char "&" (parse.quote_plus s) = false.
Proof.
  split; apply mem_char_quote_plus; (reflexivity || discriminate).
Qed.

Lemma query_param_q (city_name key : string) :
  decode.query_param "q"
    (BASE_WEATHER_API_URL +:+ "?q=" +:+ parse.quote_plus city_name +:+ "&units=" +:+ "metric"
     +:+ "&appid=" +:+ key)
  = Some city_name.
Proof.
  destruct (quote_plus_clean city_name) as [Hhash Hamp].
  destruct (query_params (parse.quote_plus city_name) key Hhash Hamp) as [others H].
  unfold decode.query_param. rewrite H, unquote_plus_quote_plus. reflexivity.
Qed.

Lemma query_param_appid (city_name key : string) :
  decode.query_param "appid"
    (BASE_WEATHER_API_URL +:+ "?q=" +:+ parse.quote_plus city_name +:+ "&units=" +:+ "metric"
     +:+ "&appid=" +:+ key)
  = Some (decode.unquote_plus (fst (decode.split_at "&" (fst (decode.split_at "#" key))))).
Proof.
  destruct (quote_plus_clean city_name) as [Hhash Hamp].
  destruct (query_params (parse.quote_plus city_name) key Hhash Hamp) as [others H].
  unfold decode.query_param. rewrite H. reflexivity.
Qed.

(** C3. The [q] parameter of the URL that [build_weather_query] returns,
    read back and percent-decoded, is the city tokens joined with single
    spaces; and two lists of tokens whose joined names differ get different
    encoded names and URLs with different query strings. *)
Theorem build_weather_query_roundtrip
    (city_input : list string) (api_key : string) (w : World) :
  fst (_get_api_key w) = Returned api_key ->
  exists url : string,
    build_weather_query city_input w = (Returned url, w) /\
    decode.query_param "q" url = Some (join " " city_input) /\
    decode.unquote_plus (parse.quote_plus (join " " city_input)) = join " " city_input /\
    forall other : list string,
      join " " other <> join " " city_input ->
      parse.quote_plus (join " " other) <> parse.quote_plus (join " " city_input) /\
      exists url' : string,
        build_weather_query other w = (Returned url', w) /\
        decode.url_query url' <> decode.url_query url /\
        url' <> url.
Proof.
  intros Hkey.
  eexists. rewrite build_weather_query_run, Hkey.
  split; [reflexivity |].
  split; [apply query_param_q |].
  split; [apply unquote_plus_quote_plus |].
  intros other Hother.
  assert (Hquery : decode.url_query
                     (BASE_WEATHER_API_URL +:+ "?q=" +:+ parse.quote_plus (join " " other)
                      +:+ "&units=" +:+ "metric" +:+ "&appid=" +:+ api_key)
                   <> decode.url_query
                        (BASE_WEATHER_API_URL +:+ "?q="
                         +:+ parse.quote_plus (join " " city_input)
                         +:+ "&units=" +:+ "metric" +:+ "&appid=" +:+ api_key)).
  { intros E.
    pose proof (query_param_q (join " " other) api_key) as H1.
    pose proof (query_param_q (join " " city_input) api_key) as H2.
    unfold decode.query_param in H1, H2. rewrite E, H2 in H1.
    injection H1 as H1. apply Hother. symmetry. exact H1. }
  split.
  - intros E. apply Hother.
    rewrite <- (unquote_plus_quote_plus (join " " other)), E.
    apply unquote_plus_quote_plus.
  - eexists. rewrite build_weather_query_run, Hkey.
    split; [reflexivity |]. split; [exact Hquery |].
    intros E. apply Hquery. rewrite E. reflexivity.
Qed.

(** C3 on New York, against Newark. *)
Lemma build_weather_query_roundtrip_witness :
  exists url : string,
    build_weather_query ["New"; "York"] (world_with (secrets_with_key "abc123") Unreachable)
      = (Returned url, world_with (secrets_with_key "abc123") Unreachable) /\
    decode.query_param "q" url = Some "New York" /\
    exists url' : string,
      build_weather_query ["Newark"] (world_with (secrets_with_key "abc123") Unreachable)
        = (Returned url', world_with (secrets_with_key "abc123") Unreachable) /\
      url' <> url.
Proof.
  destruct (build_weather_query_roundtrip ["New"; "York"] "abc123"
              (world_with (secrets_with_key "abc123") Unreachable))
    as (url & Hrun & Hq & _ & Hother).
  - vm_compute. reflexivity.
  - exists url. split; [exact Hrun |]. split; [exact Hq |].
    destruct (Hother ["Newark"]) as (_ & url' & Hrun' & _ & Hne).
    + vm_compute. discriminate.
    + exists url'. split; [exact Hrun' | exact Hne].
Defined.

(** C10. [build_weather_query] puts the API key at the end of the URL as it
    is, without percent-encoding; and for every key that holds an [&], the
    [appid] parameter read back from the URL is not the key. *)
Theorem build_weather_query_key_verbatim
    (city_input : list string) (api_key : string) (w : World) :
  fst (_get_api_key w) = Returned api_key ->
  exists url : string,
    build_weather_query city_input w = (Returned url, w) /\
    url = (BASE_WEATHER_API_URL +:+ "?q=" +:+ parse.quote_plus (join " " city_input)
           +:+ "&units=metric&appid=") +:+ api_key /\
    (mem_char "&" api_key = true -> decode.query_param "appid" url <> Some api_key).
Proof.
  intros Hkey.
  eexists. rewrite build_weather_query_run, Hkey.
  split; [reflexivity |].
  split; [rewrite !app_assoc_string; reflexivity |].
  intros Hamp. rewrite query_param_appid. intros E. injection E as E.
  pose proof (unquote_plus_length
                (fst (decode.split_at "&" (fst (decode.split_at "#" api_key))))) as Hlen.
  rewrite E in Hlen.
  destruct (split_at_length "#" api_key) as (Hle1 & Hlt1 & Heq1).
  destruct (split_at_length "&" (fst (decode.split_at "#" api_key))) as (Hle2 & Hlt2 & Heq2).
  destruct (mem_char "#" api_key) eqn:Hhash.
  - specialize (Hlt1 eq_refl). lia.
  - rewrite (Heq1 eq_refl) in Hlt2, Hlen. specialize (Hlt2 Hamp). lia.
Qed.

(** C10 on the key [abc&def]: the URL ends with the key as it is, and the
    [appid] parameter read back is [abc]. *)
Lemma build_weather_query_key_verbatim_witness :
  exists url : string,
    build_weather_query ["Paris"] (world_with (secrets_with_key "abc&def") Unreachable)
      = (Returned url, world_with (secrets_with_key "abc&def") Unreachable) /\
    url = "http://api.openweathermap.org/data/2.5/weather?q=Paris&units=metric&appid=abc&def" /\
    decode.query_param "appid" url = Some "abc" /\
    decode.query_param "appid" url <> Some "abc&def".
Proof.
  destruct (build_weather_query_key_verbatim ["Paris"] "abc&def"
              (world_with (secrets_with_key "abc&def") Unreachable))
    as (url & Hrun & Hurl & Hne).
  - vm_compute. reflexivity.
  - exists url. split; [exact Hrun |].
    split; [rewrite Hurl; reflexivity |].
    split; [rewrite Hurl; vm_compute; reflexivity |].
    apply Hne. reflexivity.
Defined.

(** ** The Display Formatter *)

Lemma starts_with_app_l (needle a b : string) :
  starts_with needle a = true -> starts_with needle (a +:+ b) = true.
Proof.
  revert a. induction needle as [|c needle IH]; intros a H; [reflexivity |].
  destruct a as [|x a]; [discriminate H |].
  rewrite app_cons. cbn [starts_with] in *.
  destruct (Ascii.eqb c x); [apply IH; exact H | discriminate H].
Qed.

Lemma contains_cons (needle : string) (c : ascii) (hay : string) :
  contains needle (String c hay) = starts_with needle (String c hay) || contains needle hay.
Proof. reflexivity. Qed.

Lemma contains_app_r (needle a b : string) :
  contains needle b = true -> contains needle (a +:+ b) = true.
Proof.
  intros H. induction a as [|c a IH]; [exact H |].
  rewrite app_cons, contains_cons, IH. apply orb_true_r.
Qed.

Lemma contains_app_l (needle a b : string) :
  contains needle a = true -> contains needle (a +:+ b) = true.
Proof.
  induction a as [|c a IH]; intros H.
  - destruct needle; [| discriminate H].
    destruct ("" +:+ b); reflexivity.
  - rewrite app_cons, contains_cons. rewrite contains_cons in H.
    apply orb_true_iff in H as [H | H].
    + rewrite <- app_cons, (starts_with_app_l _ _ b H). reflexivity.
    + rewrite (IH H). apply orb_true_r.
Qed.

Lemma contains_center (s : string) (width : nat) : contains s (center s width) = true.
Proof. unfold center. apply contains_app. Qed.

Lemma app_assoc_events (out : list terminal_event) (a : terminal_event)
    (more : list terminal_event) :
  ((out ++ [a]) ++ more = out ++ a :: more)%list.
Proof. rewrite <- List.app_assoc. reflexivity. Qed.

(** What [display_weather_info] prints when every field is where it is
    looked for, the city and the description being strings. *)
Lemma display_weather_info_run
    (PADDING : nat) (weather_data weather first weather_id main_entry temperature : pyval)
    (city description : string) (w : World) :
  getitem_key weather_data "name" = Returned (PStr city) ->
  getitem_key weather_data "weather" = Returned weather ->
  getitem_index weather 0 = Returned first ->
  getitem_key first "id" = Returned weather_id ->
  getitem_key first "description" = Returned (PStr description) ->
  getitem_key weather_data "main" = Returned main_entry ->
  getitem_key main_entry "temp" = Returned temperature ->
  display_weather_info PADDING weather_data w =
    (Returned tt,
     mkWorld (files w) (server w) (requests w)
       (stdout w ++
        [ Style style.REVERSE;
          Text (center city PADDING);
          Style style.RESET;
          Style (snd (_select_weather_display_params weather_id));
          Text (TAB +:+ fst (_select_weather_display_params weather_id) +:+ " ");
          Text (TAB +:+ center (capitalize description) PADDING +:+ " ");
          Style style.RESET;
          Text ("(" +:+ py_str temperature +:+ "Â°" +:+ "C" +:+ ")") ])).
Proof.
  intros Hname Hweather Hfirst Hid Hdescription Hmain Htemp.
  unfold display_weather_info, bind, lift.
  rewrite Hname, Hweather, Hfirst, Hid, Hdescription, Hmain, Htemp.
  destruct (_select_weather_display_params weather_id) as [weather_symbol color].
  unfold StyleOps.change_color, print, py_format_center, method_capitalize, ret.
  cbn [files server requests stdout fst snd].
  rewrite !app_assoc_events. reflexivity.
Qed.

(** What the script prints in scenario 1, by the width of the fields. *)
Lemma paris_scenario_run
    (decode : string -> result pyval) (PADDING : nat) (api_key body : string) (w : World) :
  fst (_get_api_key w) = Returned api_key ->
  server w (BASE_WEATHER_API_URL +:+ "?q=Paris&units=metric&appid=" +:+ api_key)
    = Success body ->
  decode body = Returned paris_response ->
  main decode PADDING ["Paris"] w =
    (Returned tt,
     mkWorld (files w) (server w)
       (requests w ++ [BASE_WEATHER_API_URL +:+ "?q=Paris&units=metric&appid=" +:+ api_key])
       (stdout w ++
        [ Style style.REVERSE;
          Text (center "Paris" PADDING);
          Style style.RESET;
          Style style.YELLOW;
          Text (TAB +:+ "â˜€ï¸" +:+ " ");
          Text (TAB +:+ center "Clear sky" PADDING +:+ " ");
          Style style.RESET;
          Text ("(" +:+ "18.5" +:+ "Â°" +:+ "C" +:+ ")") ])).
Proof.
  intros Hkey Hserver Hdecode.
  unfold main, bind. rewrite build_weather_query_run, Hkey.
  change (BASE_WEATHER_API_URL +:+ "?q=" +:+ parse.quote_plus (join " " ["Paris"])
          +:+ "&units=" +:+ "metric" +:+ "&appid=" +:+ api_key)
    with (BASE_WEATHER_API_URL +:+ "?q=Paris&units=metric&appid=" +:+ api_key).
  rewrite (get_weather_data_response decode _ body w Hserver), Hdecode.
  rewrite (display_weather_info_run PADDING paris_response
             (PList [PDict [("id", PInt 800); ("description", PStr "clear sky")]])
             (PDict [("id", PInt 800); ("description", PStr "clear sky")])
             (PInt 800)
             (PDict [("temp", PFloat (S754_finite false 37 (-1)))])
             (PFloat (S754_finite false 37 (-1)))
             "Paris" "clear sky") by reflexivity.
  reflexivity.
Qed.

(** C4, as the code has it. With the city tokens [Paris] and the response of
    scenario 1, the script prints, whatever the width of the fields, a text
    that holds the city [Paris], the symbol of the Clear row, the
    description as [capitalize] makes it, [Clear sky], the temperature
    [18.5], and the degree sign with the [C] of Celsius. *)
Theorem scenario_paris
    (decode : string -> result pyval) (PADDING : nat) (api_key body : string) (w : World) :
  fst (_get_api_key w) = Returned api_key ->
  server w (BASE_WEATHER_API_URL +:+ "?q=Paris&units=metric&appid=" +:+ api_key)
    = Success body ->
  decode body = Returned paris_response ->
  exists out : list terminal_event,
    main decode PADDING ["Paris"] w =
      (Returned tt,
       mkWorld (files w) (server w)
         (requests w ++ [BASE_WEATHER_API_URL +:+ "?q=Paris&units=metric&appid=" +:+ api_key])
         (stdout w ++ out)) /\
    contains "Paris" (printed_text out) = true /\
    contains (fst (_select_weather_display_params (PInt 800))) (printed_text out) = true /\
    fst (_select_weather_display_params (PInt 800)) = "â˜€ï¸" /\
    contains "Clear sky" (printed_text out) = true /\
    contains "18.5" (printed_text out) = true /\
    contains "°C" (printed_text out) = true.
Proof.
  intros Hkey Hserver Hdecode.
  eexists. split; [apply (paris_scenario_run decode PADDING api_key body w); assumption |].
  cbn [printed_text].
  split; [apply contains_app_l, contains_center |].
  split; [apply contains_app_r, contains_app_l; reflexivity |].
  split; [reflexivity |].
  split; [apply contains_app_r, contains_app_r, contains_app_l, contains_app_r,
            contains_app_l, contains_center |].
  split; apply contains_app_r, contains_app_r, contains_app_r; reflexivity.
Qed.

(** C4 with fields of 20 characters and the key [abc123]. *)
Lemma scenario_paris_witness :
  exists out : list terminal_event,
    stdout (snd (main (decode_only "body" paris_response) 20 ["Paris"]
                   (world_with (secrets_with_key "abc123") (Success "body")))) = out /\
    contains "Paris" (printed_text out) = true /\
    contains "â˜€ï¸" (printed_text out) = true /\
    contains "Clear sky" (printed_text out) = true /\
    contains "18.5" (printed_text out) = true /\
    contains "°C" (printed_text out) = true.
Proof.
  destruct (scenario_paris (decode_only "body" paris_response) 20 "abc123" "body"
              (world_with (secrets_with_key "abc123") (Success "body")))
    as (out & Hrun & Hcity & Hsymbol & Hclear & Hdescription & Htemperature & Hdegree).
  - vm_compute. reflexivity.
  - reflexivity.
  - reflexivity.
  - exists out. rewrite Hrun. split; [reflexivity |].
    rewrite Hclear in Hsymbol.
    repeat split; assumption.
Defined.

Lemma starts_with_mem (needle hay : string) (c : ascii) :
  starts_with needle hay = true -> mem_char c needle = true -> mem_char c hay = true.
Proof.
  revert hay. induction needle as [|x needle IH]; intros hay Hstarts Hmem;
    [discriminate Hmem |].
  destruct hay as [|y hay]; [discriminate Hstarts |].
  cbn [starts_with mem_char] in *.
  destruct (Ascii.eqb_spec x y) as [<- |]; [| discriminate Hstarts].
  apply orb_true_iff in Hmem as [Hmem | Hmem].
  - rewrite Hmem. reflexivity.
  - rewrite (IH hay Hstarts Hmem). apply orb_true_r.
Qed.

Lemma contains_mem (needle hay : string) (c : ascii) :
  contains needle hay = true -> mem_char c needle = true -> mem_char c hay = true.
Proof.
  intros Hcontains Hmem. induction hay as [|y hay IH].
  - destruct needle; [discriminate Hmem | discriminate Hcontains].
  - rewrite contains_cons in Hcontains. apply orb_true_iff in Hcontains as [H | H].
    + apply (starts_with_mem needle); assumption.
    + cbn [mem_char]. rewrite (IH H). apply orb_true_r.
Qed.

Lemma mem_char_spaces (c : ascii) (n : nat) :
  Ascii.eqb " " c = false -> mem_char c (spaces n) = false.
Proof.
  intros H. induction n as [|n IH]; [reflexivity |].
  cbn [spaces mem_char]. rewrite H, IH. reflexivity.
Qed.

Lemma mem_char_center (c : ascii) (s : string) (width : nat) :
  Ascii.eqb " " c = false -> mem_char c (center s width) = mem_char c s.
Proof.
  intros H. unfold center.
  rewrite !mem_char_app, !(mem_char_spaces c _ H), orb_false_r. reflexivity.
Qed.

(** Whatever the width of the fields, the text of scenario 1 has no capital
    S, so it does not hold [Clear Sky]. *)
Lemma paris_scenario_never_title_case
    (decode : string -> result pyval) (PADDING : nat) (api_key body : string) (w : World) :
  fst (_get_api_key w) = Returned api_key ->
  server w (BASE_WEATHER_API_URL +:+ "?q=Paris&units=metric&appid=" +:+ api_key)
    = Success body ->
  decode body = Returned paris_response ->
  stdout w = [] ->
  contains "Clear Sky" (printed_text (stdout (snd (main decode PADDING ["Paris"] w)))) = false.
Proof.
  intros Hkey Hserver Hdecode Hout.
  rewrite (paris_scenario_run decode PADDING api_key body w Hkey Hserver Hdecode), Hout.
  cbn [snd stdout app printed_text].
  destruct (contains "Clear Sky" _) eqn:Hcontains; [| reflexivity].
  apply (contains_mem _ _ "S") in Hcontains; [| reflexivity].
  rewrite !mem_char_app, !mem_char_center in Hcontains by reflexivity.
  discriminate Hcontains.
Qed.

(** C4 as the specification states it fails: with fields of 20 characters
    the script runs to its end and prints the description as [Clear sky];
    [Clear Sky] is nowhere in the text, and neither is [18.5°C], the
    literal of the source between the temperature and the [C] being longer
    than a degree sign. *)
Lemma scenario_paris_counterexample :
  fst (main (decode_only "body" paris_response) 20 ["Paris"]
         (world_with (secrets_with_key "abc123") (Success "body"))) = Returned tt /\
  contains "Clear Sky"
    (printed_text
       (stdout (snd (main (decode_only "body" paris_response) 20 ["Paris"]
                       (world_with (secrets_with_key "abc123") (Success "body"))))))
  = false /\
  contains "18.5°C"
    (printed_text
       (stdout (snd (main (decode_only "body" paris_response) 20 ["Paris"]
                       (world_with (secrets_with_key "abc123") (Success "body"))))))
  = false.
Proof. repeat split; vm_compute; reflexivity. Qed.

(** C9, as the code has it. For a dictionary with a [name] and with an empty
    list as its [weather], [display_weather_info] raises [IndexError] and
    leaves the world as it was: nothing has been printed. *)
Theorem display_weather_info_empty_weather
    (PADDING : nat) (entries : list (string * pyval)) (city : pyval) (w : World) :
  dict_get entries "name" = Some city ->
  dict_get entries "weather" = Some (PList []) ->
  display_weather_info PADDING (PDict entries) w = (Raised IndexError, w) /\
  exit_status (fst (display_weather_info PADDING (PDict entries) w)) <> 0.
Proof.
  intros Hname Hweather.
  assert (Hrun : display_weather_info PADDING (PDict entries) w = (Raised IndexError, w)).
  { unfold display_weather_info, bind, lift, getitem_key.
    rewrite Hname, Hweather. reflexivity. }
  rewrite Hrun. split; [reflexivity | simpl; discriminate].
Qed.

(** C9 on the response of scenario 1 with its list of conditions emptied. *)
Lemma display_weather_info_empty_weather_witness :
  display_weather_info 20
    (PDict [ ("name", PStr "Paris"); ("weather", PList []);
             ("main", PDict [("temp", PFloat (S754_finite false 37 (-1)))]) ])
    (world_with ∅ Unreachable)
  = (Raised IndexError, world_with ∅ Unreachable).
Proof.
  apply (display_weather_info_empty_weather 20 _ (PStr "Paris")); reflexivity.
Defined.

(** C9 as stated fails: a dictionary whose [weather] is an empty list and
    that has no [name] makes [display_weather_info] raise [KeyError] for the
    name, not [IndexError]. *)
Lemma display_weather_info_empty_weather_counterexample :
  dict_get [("weather", PList [])] "weather" = Some (PList []) /\
  display_weather_info 20 (PDict [("weather", PList [])]) (world_with ∅ Unreachable)
  = (Raised (KeyError (PStr "name")), world_with ∅ Unreachable) /\
  fst (display_weather_info 20 (PDict [("weather", PList [])]) (world_with ∅ Unreachable))
  <> Raised IndexError.
Proof.
  split; [reflexivity |]. split; [reflexivity |]. discriminate.
Qed.

(** * Further properties *)

(** ** The selection of symbol and color *)

Lemma py_in_codes (n : Z) (c : codes) : py_in (PInt n) c = true <-> in_codes n c.
Proof.
  unfold py_in, int_value. destruct c as [lo hi | members]; simpl.
  - rewrite andb_true_iff, Z.leb_le, Z.ltb_lt. reflexivity.
  - rewrite existsb_exists. split.
    + intros (x & Hin & Heq). apply Z.eqb_eq in Heq. subst x. exact Hin.
    + intros Hin. exists n. split; [exact Hin | apply Z.eqb_refl].
Qed.

Lemma py_in_int_value (v : pyval) (n : Z) (c : codes) :
  int_value v = Some n -> py_in v c = py_in (PInt n) c.
Proof. intros H. unfold py_in. rewrite H. reflexivity. Qed.

(** X1. [_select_weather_display_params] returns the pair of its else
    branch for the codes that are in no row of the table and for no other
    code: no row of the table has that pair. *)
Theorem select_fallback_iff_unlisted (code : Z) :
  _select_weather_display_params (PInt code) = fallback_params <-> unlisted code.
Proof.
  split.
  - intros Hfallback row Hrow Hcode.
    pose proof (first_match_row code row Hrow Hcode) as Hfirst.
    rewrite select_first_match, Hfirst in Hfallback.
    unfold display_table in Hrow. simpl in Hrow.
    repeat (destruct Hrow as [<- | Hrow]; [discriminate Hfallback |]).
    contradiction.
  - intros H. rewrite select_first_match, (unlisted_no_match code H). reflexivity.
Qed.

(** X1 at 800, which is listed, and at 450, which is not. *)
Lemma select_fallback_iff_unlisted_witness :
  ~ unlisted 800 /\ _select_weather_display_params (PInt 450) = fallback_params.
Proof.
  split.
  - intros H. apply (proj2 (select_fallback_iff_unlisted 800)) in H. discriminate H.
  - apply (proj2 (select_fallback_iff_unlisted 450)).
    intros row Hrow. unfold display_table in Hrow. simpl in Hrow.
    repeat (destruct Hrow as [<- | Hrow]; [simpl; lia |]).
    contradiction.
Defined.

(** X2. The sixteen sets of codes of weather.py are pairwise disjoint: a
    value is in one of them at most, so the order of the tests never decides
    which pair is selected. *)
Theorem code_sets_disjoint (v : pyval) (a b : codes) :
  In a code_sets -> In b code_sets ->
  py_in v a = true -> py_in v b = true -> a = b.
Proof.
  intros Ha Hb Hina Hinb.
  destruct (int_value v) as [n|] eqn:Hv;
    [| unfold py_in in Hina; rewrite Hv in Hina; discriminate Hina].
  rewrite (py_in_int_value v n a Hv) in Hina.
  rewrite (py_in_int_value v n b Hv) in Hinb.
  apply py_in_codes in Hina. apply py_in_codes in Hinb.
  unfold code_sets in Ha, Hb. simpl in Ha, Hb.
  repeat (destruct Ha as [<- | Ha]; [
    repeat (destruct Hb as [<- | Hb];
            [first [reflexivity | exfalso; simpl in Hina, Hinb; lia] |]);
    contradiction |]).
  contradiction.
Qed.

(** X2 on the float 800.0: it is in [CLEAR], so it is not in [CLOUDY]. *)
Lemma code_sets_disjoint_witness :
  py_in (PFloat (S754_finite false 1600 (-1))) CLEAR = true /\
  py_in (PFloat (S754_finite false 1600 (-1))) CLOUDY <> true.
Proof.
  split; [reflexivity |].
  intros Hin.
  assert (H : CLEAR = CLOUDY).
  { apply (code_sets_disjoint (PFloat (S754_finite false 1600 (-1))) CLEAR CLOUDY).
    - unfold code_sets. simpl. do 14 right. left. reflexivity.
    - unfold code_sets. simpl. do 15 right. left. reflexivity.
    - reflexivity.
    - exact Hin. }
  discriminate H.
Defined.

(** X3. The weather code may be any Python value, and no value makes the
    selection fail: a value equal to an integer (the integer itself, or the
    float of the same value) selects what the integer selects, and a value
    equal to no integer, such as [None], a string, a list or a dictionary,
    selects the fallback pair. *)
Theorem select_by_value :
  (forall (v : pyval) (n : Z),
     int_value v = Some n ->
     _select_weather_display_params v = _select_weather_display_params (PInt n)) /\
  (forall v : pyval,
     int_value v = None -> _select_weather_display_params v = fallback_params) /\
  _select_weather_display_params PNone = fallback_params /\
  (forall s : string, _select_weather_display_params (PStr s) = fallback_params) /\
  (forall items : list pyval,
     _select_weather_display_params (PList items) = fallback_params) /\
  (forall entries : list (string * pyval),
     _select_weather_display_params (PDict entries) = fallback_params).
Proof.
  split; [| split; [| repeat split]].
  - intros v n Hv. rewrite !select_first_match. f_equal.
    unfold display_table, first_match.
    rewrite !(py_in_int_value v n _ Hv). reflexivity.
  - intros v Hv. unfold _select_weather_display_params, py_in. rewrite Hv. reflexivity.
Qed.

(** X3 on the float 800.0 and on the string 800. *)
Lemma select_by_value_witness :
  _select_weather_display_params (PFloat (S754_finite false 1600 (-1)))
    = _select_weather_display_params (PInt 800) /\
  _select_weather_display_params (PStr "800") = fallback_params.
Proof.
  destruct select_by_value as (Hsome & Hnone & _).
  split.
  - apply Hsome. reflexivity.
  - apply Hnone. reflexivity.
Defined.

(** ** The Weather Fetcher, case by case *)

Lemma get_weather_data_failure
    (decode : string -> result pyval) (query_url : string) (w : World) (status : Z) :
  server w query_url = Failure status ->
  get_weather_data decode query_url w =
    (Raised (SystemExit
       (if status =? 401 then "Access denied. Check your API key."
        else if status =? 404 then "Can't find weather data for this city."
        else "Something went wrong... (" +:+ int_str status +:+ ")")),
     sent w query_url).
Proof.
  intros Hserver.
  unfold get_weather_data, bind, try_except, request.urlopen.
  rewrite Hserver.
  destruct (status =? 401); [reflexivity |].
  destruct (status =? 404); reflexivity.
Qed.

Lemma get_weather_data_unreachable
    (decode : string -> result pyval) (query_url : string) (w : World) :
  server w query_url = Unreachable ->
  get_weather_data decode query_url w = (Raised URLError, sent w query_url).
Proof.
  intros Hserver.
  unfold get_weather_data, bind, try_except, request.urlopen.
  rewrite Hserver. reflexivity.
Qed.

(** An exception of [urlopen] that is not an [HTTPError] goes through; an
    [HTTPError] ends in [sys.exit] wherever it comes from. *)
Lemma get_weather_data_urlopen_raises
    (decode : string -> result pyval) (query_url : string) (w : World) (e : exn) :
  (server w query_url = Refused e ->
   ((forall status, e <> HTTPError status) /\
    get_weather_data decode query_url w = (Raised e, w)) \/
   (exists (status : Z) (message : string),
      e = HTTPError status /\
      get_weather_data decode query_url w = (Raised (SystemExit message), w))) /\
  (server w query_url = Broken e ->
   ((forall status, e <> HTTPError status) /\
    get_weather_data decode query_url w = (Raised e, sent w query_url)) \/
   (exists (status : Z) (message : string),
      e = HTTPError status /\
      get_weather_data decode query_url w = (Raised (SystemExit message), sent w query_url))).
Proof.
  split; intros Hserver;
    unfold get_weather_data, bind, try_except, request.urlopen; rewrite Hserver;
    destruct e;
    first [ left; split; [intros status; discriminate | reflexivity]
          | right; exists code,
              (if code =? 401 then "Access denied. Check your API key."
               else if code =? 404 then "Can't find weather data for this city."
               else "Something went wrong... (" +:+ int_str code +:+ ")");
            split; [reflexivity |];
            destruct (code =? 401); [reflexivity |];
            destruct (code =? 404); reflexivity ].
Qed.

(** X5. [get_weather_data] returns a value only when the server answered
    with a response on whose body [json.loads] returns, and the value is the
    one [json.loads] returns; in every other case it raises. *)
Theorem get_weather_data_returns_iff
    (decode : string -> result pyval) (query_url : string) (w : World) (value : pyval) :
  fst (get_weather_data decode query_url w) = Returned value <->
  exists body : string, server w query_url = Success body /\ decode body = Returned value.
Proof.
  destruct (server w query_url) as [body | status | | e | e] eqn:Hserver.
  - rewrite (get_weather_data_response decode query_url body w Hserver). cbn [fst].
    split.
    + intros H. exists body. split; [reflexivity |].
      destruct (decode body) as [v | []]; try discriminate H. exact H.
    + intros (body' & Hbody & Hdecode). injection Hbody as <-.
      rewrite Hdecode. reflexivity.
  - rewrite (get_weather_data_failure decode query_url w status Hserver). cbn [fst].
    split; [discriminate | intros (body & Hbody & _); discriminate Hbody].
  - rewrite (get_weather_data_unreachable decode query_url w Hserver). cbn [fst].
    split; [discriminate | intros (body & Hbody & _); discriminate Hbody].
  - destruct (get_weather_data_urlopen_raises decode query_url w e) as [Hrefused _].
    destruct (Hrefused Hserver) as [(Hnot & Hrun) | (status & message & He & Hrun)];
      rewrite Hrun; cbn [fst];
      (split; [discriminate | intros (body & Hbody & _); discriminate Hbody]).
  - destruct (get_weather_data_urlopen_raises decode query_url w e) as [_ Hbroken].
    destruct (Hbroken Hserver) as [(Hnot & Hrun) | (status & message & He & Hrun)];
      rewrite Hrun; cbn [fst];
      (split; [discriminate | intros (body & Hbody & _); discriminate Hbody]).
Qed.

(** X5 on a server that answers with an empty JSON object. *)
Lemma get_weather_data_returns_iff_witness :
  fst (get_weather_data (decode_only "{}" (PDict [])) "u" (world_with ∅ (Success "{}")))
  = Returned (PDict []).
Proof.
  apply (proj2 (get_weather_data_returns_iff (decode_only "{}" (PDict [])) "u"
                  (world_with ∅ (Success "{}")) (PDict []))).
  exists "{}". split; reflexivity.
Defined.



Lemma int_str_inj (a b : Z) : int_str a = int_str b -> a = b.
Proof.
  unfold int_str. intros H.
  apply DecimalZ.to_int_inj.
  assert (Hnil : forall z : Z,
            Z.to_int z <> Decimal.Pos Decimal.Nil /\ Z.to_int z <> Decimal.Neg Decimal.Nil).
  { intros [|p|p]; simpl; split; try discriminate;
      intros E; injection E as E; exact (DecimalPos.Unsigned.to_uint_nonnil p E). }
  apply (f_equal NilZero.int_of_string) in H.
  rewrite !NilZero.isi in H by apply Hnil.
  injection H as H. exact H.
Qed.

Lemma app_inv_head_string (a x y : string) : a +:+ x = a +:+ y -> x = y.
Proof.
  induction a as [|c a IH]; [intros H; exact H |].
  rewrite !app_cons. intros H. injection H as H. apply IH. exact H.
Qed.

Lemma app_inv_last_char (x y : string) (c : ascii) :
  x +:+ String c "" = y +:+ String c "" -> x = y.
Proof.
  revert y. induction x as [|a x IH]; intros y H.
  - destruct y as [|b y]; [reflexivity |].
    rewrite app_empty_l, app_cons in H. injection H as _ H. destruct y; discriminate H.
  - destruct y as [|b y].
    + rewrite app_empty_l, app_cons in H. injection H as _ H. destruct x; discriminate H.
    + rewrite !app_cons in H. injection H as Hab H.
      rewrite Hab, (IH y H). reflexivity.
Qed.

(** X7. The exit message tells the HTTP status: two error statuses that
    make [get_weather_data] end with the same message are the same
    status. *)
Theorem get_weather_data_message_tells_status
    (decode1 decode2 : string -> result pyval) (url1 url2 : string) (w1 w2 : World)
    (status1 status2 : Z) :
  server w1 url1 = Failure status1 ->
  server w2 url2 = Failure status2 ->
  fst (get_weather_data decode1 url1 w1) = fst (get_weather_data decode2 url2 w2) ->
  status1 = status2.
Proof.
  intros H1 H2.
  rewrite (get_weather_data_failure decode1 url1 w1 status1 H1),
          (get_weather_data_failure decode2 url2 w2 status2 H2).
  cbn [fst]. intros E. injection E as E.
  destruct (status1 =? 401) eqn:A1; destruct (status2 =? 401) eqn:A2;
    destruct (status1 =? 404) eqn:B1; destruct (status2 =? 404) eqn:B2;
    try discriminate E;
    repeat match goal with
      | H : (_ =? _) = true |- _ => apply Z.eqb_eq in H
      end;
    try congruence.
  apply app_inv_head_string in E.
  change (")" : string) with (String ")" "") in E.
  apply app_inv_last_char in E. apply int_str_inj. exact E.
Qed.

(** X7 on the statuses 500 and 503: their messages differ, whereas two
    servers that answer 503 give the same message. *)
Lemma get_weather_data_message_tells_status_witness :
  fst (get_weather_data (fun _ => Raised JSONDecodeError) "u" (world_with ∅ (Failure 503)))
    = fst (get_weather_data (fun _ => Raised JSONDecodeError) "v"
             (world_with (secrets_with_key "k") (Failure 503))) /\
  fst (get_weather_data (fun _ => Raised JSONDecodeError) "u" (world_with ∅ (Failure 500)))
    <> fst (get_weather_data (fun _ => Raised JSONDecodeError) "u" (world_with ∅ (Failure 503))).
Proof.
  split; [reflexivity |].
  intros E.
  assert (H : 500 = 503).
  { apply (get_weather_data_message_tells_status (fun _ => Raised JSONDecodeError) (fun _ => Raised JSONDecodeError) "u" "u"
             (world_with ∅ (Failure 500)) (world_with ∅ (Failure 503)) 500 503);
      [reflexivity | reflexivity | exact E]. }
  discriminate H.
Defined.

(** ** The Display Formatter, case by case *)

Lemma getitem_key_error (v : pyval) (k : string) (e : exn) :
  getitem_key v k = Raised e -> is_lookup_error e = true.
Proof.
  destruct v; simpl; try (intros H; injection H as <-; reflexivity).
  destruct (dict_get entries k); [discriminate |].
  intros H. injection H as <-. reflexivity.
Qed.

Lemma getitem_index_error (v : pyval) (i : Z) (e : exn) :
  getitem_index v i = Raised e -> is_lookup_error e = true.
Proof.
  destruct v; simpl; try (intros H; injection H as <-; reflexivity).
  - destruct (seq_index (utf8_chars s) i); [discriminate |].
    intros H. injection H as <-. reflexivity.
  - destruct (seq_index items i); [discriminate |].
    intros H. injection H as <-. reflexivity.
Qed.

Lemma py_format_center_error (v : pyval) (width : nat) (e : exn) :
  py_format_center v width = Raised e -> e = TypeError.
Proof.
  destruct v; simpl; intros H; try discriminate H; injection H as <-; reflexivity.
Qed.

(** The four ways a call of [display_weather_info] can end. *)
Lemma display_weather_info_outcome (PADDING : nat) (weather_data : pyval) (w : World) :
  (exists (city_field : string) (color : style.color)
          (symbol_text description_text temperature_text : string),
     display_weather_info PADDING weather_data w =
       (Returned tt,
        printed w [ Style style.REVERSE; Text city_field; Style style.RESET;
                    Style color; Text symbol_text; Text description_text;
                    Style style.RESET; Text temperature_text ])) \/
  (exists e : exn,
     is_lookup_error e = true /\
     display_weather_info PADDING weather_data w = (Raised e, w)) \/
  display_weather_info PADDING weather_data w
    = (Raised TypeError, printed w [Style style.REVERSE]) \/
  (exists (city_field : string) (color : style.color) (symbol_text : string),
     display_weather_info PADDING weather_data w =
       (Raised AttributeError,
        printed w [ Style style.REVERSE; Text city_field; Style style.RESET;
                    Style color; Text symbol_text ])).
Proof.
  unfold display_weather_info, bind, lift.
  destruct (getitem_key weather_data "name") as [city | e] eqn:H1;
    [| right; left; exists e; split;
       [exact (getitem_key_error _ _ _ H1) | reflexivity]].
  destruct (getitem_key weather_data "weather") as [weather | e] eqn:H2;
    [| right; left; exists e; split;
       [exact (getitem_key_error _ _ _ H2) | reflexivity]].
  destruct (getitem_index weather 0) as [first | e] eqn:H3;
    [| right; left; exists e; split;
       [exact (getitem_index_error _ _ _ H3) | reflexivity]].
  destruct (getitem_key first "id") as [weather_id | e] eqn:H4;
    [| right; left; exists e; split;
       [exact (getitem_key_error _ _ _ H4) | reflexivity]].
  destruct (getitem_key first "description") as [description | e] eqn:H5;
    [| right; left; exists e; split;
       [exact (getitem_key_error _ _ _ H5) | reflexivity]].
  destruct (getitem_key weather_data "main") as [main_entry | e] eqn:H6;
    [| right; left; exists e; split;
       [exact (getitem_key_error _ _ _ H6) | reflexivity]].
  destruct (getitem_key main_entry "temp") as [temperature | e] eqn:H7;
    [| right; left; exists e; split;
       [exact (getitem_key_error _ _ _ H7) | reflexivity]].
  unfold StyleOps.change_color, print, ret. cbn [files server requests stdout].
  destruct (py_format_center city PADDING) as [city_field | e] eqn:Hcity.
  - destruct (_select_weather_display_params weather_id) as [weather_symbol color].
    cbn [files server requests stdout].
    destruct description;
      try (right; right; right; eexists _, _, _; unfold method_capitalize, raise, printed;
           rewrite !app_assoc_events; reflexivity).
    left. eexists _, _, _, _, _.
    unfold method_capitalize, ret, py_format_center, printed.
    cbn [files server requests stdout].
    rewrite !app_assoc_events. reflexivity.
  - rewrite (py_format_center_error _ _ _ Hcity).
    right; right; left. reflexivity.
Qed.

Lemma last_style_app (a b : list terminal_event) (current : option style.color) :
  last_style (a ++ b) current = last_style b (last_style a current).
Proof.
  revert current. induction a as [|[c | text] a IH]; intros current; simpl;
    [reflexivity | apply IH | apply IH].
Qed.

(** X8. When [display_weather_info] raises [KeyError] or [IndexError], a
    field of the response was missing, and nothing has reached the terminal:
    the world is as it was before the call. *)
Theorem display_weather_info_missing_field
    (PADDING : nat) (weather_data : pyval) (w w' : World) (e : exn) :
  display_weather_info PADDING weather_data w = (Raised e, w') ->
  (e = IndexError \/ exists key : pyval, e = KeyError key) ->
  w' = w.
Proof.
  intros Hrun He.
  destruct (display_weather_info_outcome PADDING weather_data w)
    as [(a & c & b & d & t & H) | [(e' & _ & H) | [H | (a & c & b & H)]]];
    rewrite H in Hrun; try discriminate Hrun; injection Hrun as Hexn Hworld.
  - symmetry. exact Hworld.
  - subst e. destruct He as [He | [key He]]; discriminate He.
  - subst e. destruct He as [He | [key He]]; discriminate He.
Qed.

(** X8 on a response without the entry [main]. *)
Lemma display_weather_info_missing_field_witness :
  display_weather_info 20
    (PDict [ ("name", PStr "Paris");
             ("weather", PList [PDict [("id", PInt 800); ("description", PStr "clear sky")]]) ])
    (world_with ∅ Unreachable)
  = (Raised (KeyError (PStr "main")), world_with ∅ Unreachable).
Proof.
  assert (Hrun : exists w',
            display_weather_info 20
              (PDict [ ("name", PStr "Paris");
                       ("weather",
                        PList [PDict [("id", PInt 800); ("description", PStr "clear sky")]]) ])
              (world_with ∅ Unreachable)
            = (Raised (KeyError (PStr "main")), w')).
  { eexists. reflexivity. }
  destruct Hrun as [w' Hrun]. rewrite Hrun. f_equal.
  apply (display_weather_info_missing_field 20 _ _ _ _ Hrun).
  right. eexists. reflexivity.
Defined.

(** X9. When [display_weather_info] returns, it has added to the terminal
    exactly this: the reverse style, a text, a reset, a color, two texts, a
    reset and a last text. Every styled segment is followed by a reset, the
    style in effect at the end is [style.RESET], and neither the files nor
    the log of requests have changed. *)
Theorem display_weather_info_resets_style
    (PADDING : nat) (weather_data : pyval) (w w' : World) (current : option style.color) :
  display_weather_info PADDING weather_data w = (Returned tt, w') ->
  (exists (city_field : string) (color : style.color)
          (symbol_text description_text temperature_text : string),
     stdout w' = (stdout w ++
                  [ Style style.REVERSE; Text city_field; Style style.RESET;
                    Style color; Text symbol_text; Text description_text;
                    Style style.RESET; Text temperature_text ])%list) /\
  last_style (stdout w') current = Some style.RESET /\
  requests w' = requests w /\
  files w' = files w.
Proof.
  intros Hrun.
  destruct (display_weather_info_outcome PADDING weather_data w)
    as [(a & c & b & d & t & H) | [(e' & _ & H) | [H | (a & c & b & H)]]];
    rewrite H in Hrun; try discriminate Hrun.
  injection Hrun as <-. unfold printed. cbn [stdout requests files].
  split; [eexists _, _, _, _, _; reflexivity |].
  split; [rewrite last_style_app; reflexivity |].
  split; reflexivity.
Qed.

(** X9 on the response of scenario 1, the terminal being in some style
    before. *)
Lemma display_weather_info_resets_style_witness :
  last_style
    (stdout (snd (display_weather_info 20 paris_response
                    (mkWorld ∅ (fun _ => Unreachable) [] [Style style.RED; Text "before"]))))
    None
  = Some style.RESET.
Proof.
  destruct (display_weather_info 20 paris_response
              (mkWorld ∅ (fun _ => Unreachable) [] [Style style.RED; Text "before"]))
    as [r w'] eqn:Hrun.
  assert (Hr : r = Returned tt).
  { apply (f_equal fst) in Hrun. cbn [fst] in Hrun. rewrite <- Hrun.
    vm_compute. reflexivity. }
  subst r.
  destruct (display_weather_info_resets_style 20 paris_response _ w' None Hrun)
    as (_ & Hstyle & _).
  exact Hstyle.
Defined.

Lemma display_weather_info_lookups
    (PADDING : nat) (weather_data weather first weather_id description main_entry
     temperature city : pyval) (w : World) :
  getitem_key weather_data "name" = Returned city ->
  getitem_key weather_data "weather" = Returned weather ->
  getitem_index weather 0 = Returned first ->
  getitem_key first "id" = Returned weather_id ->
  getitem_key first "description" = Returned description ->
  getitem_key weather_data "main" = Returned main_entry ->
  getitem_key main_entry "temp" = Returned temperature ->
  display_weather_info PADDING weather_data w =
    match py_format_center city PADDING with
    | Raised e => (Raised e, printed w [Style style.REVERSE])
    | Returned city_field =>
        match description with
        | PStr text =>
            (Returned tt,
             printed w
               [ Style style.REVERSE; Text city_field; Style style.RESET;
                 Style (snd (_select_weather_display_params weather_id));
                 Text (TAB +:+ fst (_select_weather_display_params weather_id) +:+ " ");
                 Text (TAB +:+ center (capitalize text) PADDING +:+ " ");
                 Style style.RESET;
                 Text ("(" +:+ py_str temperature +:+ "Â°" +:+ "C" +:+ ")") ])
        | _ =>
            (Raised AttributeError,
             printed w
               [ Style style.REVERSE; Text city_field; Style style.RESET;
                 Style (snd (_select_weather_display_params weather_id));
                 Text (TAB +:+ fst (_select_weather_display_params weather_id) +:+ " ") ])
        end
    end.
Proof.
  intros Hname Hweather Hfirst Hid Hdescription Hmain Htemp.
  unfold display_weather_info, bind, lift.
  rewrite Hname, Hweather, Hfirst, Hid, Hdescription, Hmain, Htemp.
  unfold StyleOps.change_color, print, ret. cbn [files server requests stdout].
  destruct (py_format_center city PADDING) as [city_field | e]; [| reflexivity].
  destruct (_select_weather_display_params weather_id) as [weather_symbol color].
  cbn [files server requests stdout fst snd].
  destruct description;
    unfold method_capitalize, raise, ret, py_format_center, printed;
    cbn [files server requests stdout]; rewrite !app_assoc_events; reflexivity.
Qed.

(** X10. A response whose fields are all there but whose [name] is [null], a
    list or an object makes [display_weather_info] raise [TypeError] when
    the name is formatted: the reverse style has been set by then, so the
    terminal is left in reverse style with no text printed. *)
Theorem display_weather_info_name_not_text
    (PADDING : nat) (weather_data weather first weather_id description main_entry
     temperature city : pyval) (w : World) (current : option style.color) :
  getitem_key weather_data "name" = Returned city ->
  getitem_key weather_data "weather" = Returned weather ->
  getitem_index weather 0 = Returned first ->
  getitem_key first "id" = Returned weather_id ->
  getitem_key first "description" = Returned description ->
  getitem_key weather_data "main" = Returned main_entry ->
  getitem_key main_entry "temp" = Returned temperature ->
  (city = PNone \/ (exists items, city = PList items) \/ (exists entries, city = PDict entries)) ->
  display_weather_info PADDING weather_data w
    = (Raised TypeError, printed w [Style style.REVERSE]) /\
  last_style (stdout (snd (display_weather_info PADDING weather_data w))) current
    = Some style.REVERSE.
Proof.
  intros Hname Hweather Hfirst Hid Hdescription Hmain Htemp Hcity.
  rewrite (display_weather_info_lookups PADDING weather_data weather first weather_id
             description main_entry temperature city w
             Hname Hweather Hfirst Hid Hdescription Hmain Htemp).
  assert (Hformat : py_format_center city PADDING = Raised TypeError).
  { destruct Hcity as [-> | [[items ->] | [entries ->]]]; reflexivity. }
  rewrite Hformat. split; [reflexivity |].
  unfold printed. cbn [snd stdout]. rewrite last_style_app. reflexivity.
Qed.

(** X10 on the response of scenario 1 with [null] for its name. *)
Lemma display_weather_info_name_not_text_witness :
  display_weather_info 20
    (PDict [ ("name", PNone);
             ("weather", PList [PDict [("id", PInt 800); ("description", PStr "clear sky")]]);
             ("main", PDict [("temp", PInt 18)]) ])
    (world_with ∅ Unreachable)
  = (Raised TypeError, mkWorld ∅ (fun _ => Unreachable) [] [Style style.REVERSE]).
Proof.
  apply (display_weather_info_name_not_text 20 _
           (PList [PDict [("id", PInt 800); ("description", PStr "clear sky")]])
           (PDict [("id", PInt 800); ("description", PStr "clear sky")])
           (PInt 800) (PStr "clear sky") (PDict [("temp", PInt 18)]) (PInt 18) PNone
           (world_with ∅ Unreachable) None);
    try reflexivity.
  left. reflexivity.
Defined.










(** ** The script as a whole *)


Lemma main_with_key
    (decode : string -> result pyval) (PADDING : nat) (city : list string)
    (api_key : string) (w : World) :
  fst (_get_api_key w) = Returned api_key ->
  main decode PADDING city w =
    match fst (get_weather_data decode (request_url api_key city) w) with
    | Returned weather_data =>
        display_weather_info PADDING weather_data
          (snd (get_weather_data decode (request_url api_key city) w))
    | Raised e => (Raised e, snd (get_weather_data decode (request_url api_key city) w))
    end.
Proof.
  intros Hkey. unfold main, bind. rewrite build_weather_query_run, Hkey.
  fold (request_url api_key city).
  destruct (get_weather_data decode (request_url api_key city) w) as [[value | e] w'];
    reflexivity.
Qed.



(** X14. End to end, an HTTP error status ends the script with the message
    of that status and with status 1, after one request and before any
    output: the access message for 401, the unknown-city message for 404,
    the message with the status in it otherwise. *)
Theorem main_http_error
    (decode : string -> result pyval) (PADDING : nat) (city : list string)
    (api_key : string) (w : World) (status : Z) :
  fst (_get_api_key w) = Returned api_key ->
  server w (request_url api_key city) = Failure status ->
  exists message : string,
    main decode PADDING city w
      = (Raised (SystemExit message), sent w (request_url api_key city)) /\
    exit_status (fst (main decode PADDING city w)) = 1 /\
    (status = 401 -> message = "Access denied. Check your API key.") /\
    (status = 404 -> message = "Can't find weather data for this city.") /\
    (status <> 401 -> status <> 404 ->
     message = "Something went wrong... (" +:+ int_str status +:+ ")").
Proof.
  intros Hkey Hserver.
  eexists.
  rewrite (main_with_key decode PADDING city api_key w Hkey),
          (get_weather_data_failure decode _ w status Hserver).
  cbn [fst snd]. split; [reflexivity |]. split; [reflexivity |].
  split; [| split].
  - intros ->. reflexivity.
  - intros ->. reflexivity.
  - intros H401 H404.
    destruct (Z.eqb_spec status 401) as [|_]; [contradiction |].
    destruct (Z.eqb_spec status 404) as [|_]; [contradiction |].
    reflexivity.
Qed.

(** X14 on a server that answers 404 and on one that answers 429. *)
Lemma main_http_error_witness :
  fst (main (fun _ => Raised JSONDecodeError) 20 ["Atlantis"]
         (world_with (secrets_with_key "abc123") (Failure 404)))
    = Raised (SystemExit "Can't find weather data for this city.") /\
  fst (main (fun _ => Raised JSONDecodeError) 20 ["Paris"]
         (world_with (secrets_with_key "abc123") (Failure 429)))
    = Raised (SystemExit "Something went wrong... (429)").
Proof.
  split.
  - destruct (main_http_error (fun _ => Raised JSONDecodeError) 20 ["Atlantis"] "abc123"
                (world_with (secrets_with_key "abc123") (Failure 404)) 404)
      as (message & Hrun & _ & _ & H404 & _).
    + vm_compute. reflexivity.
    + reflexivity.
    + rewrite Hrun, (H404 eq_refl). reflexivity.
  - destruct (main_http_error (fun _ => Raised JSONDecodeError) 20 ["Paris"] "abc123"
                (world_with (secrets_with_key "abc123") (Failure 429)) 429)
      as (message & Hrun & _ & _ & _ & Hother).
    + vm_compute. reflexivity.
    + reflexivity.
    + rewrite Hrun, Hother by lia. reflexivity.
Defined.

(** X15. End to end, a response on whose body [json.loads] raises
    [JSONDecodeError] ends the script with the message about the server
    response and with status 1, after the request and before any output. *)
Theorem main_body_not_json
    (decode : string -> result pyval) (PADDING : nat) (city : list string)
    (api_key body : string) (w : World) :
  fst (_get_api_key w) = Returned api_key ->
  server w (request_url api_key city) = Success body ->
  decode body = Raised JSONDecodeError ->
  main decode PADDING city w
    = (Raised (SystemExit "Couldn't read the server response."),
       sent w (request_url api_key city)) /\
  exit_status (fst (main decode PADDING city w)) = 1.
Proof.
  intros Hkey Hserver Hdecode.
  rewrite (main_with_key decode PADDING city api_key w Hkey),
          (get_weather_data_response decode _ body w Hserver), Hdecode.
  split; reflexivity.
Qed.

(** X15 on a server that answers with a page of HTML. *)
Lemma main_body_not_json_witness :
  fst (main decode_sample 20 ["Paris"]
         (world_with (secrets_with_key "abc123") (Success "<html>")))
  = Raised (SystemExit "Couldn't read the server response.").
Proof.
  destruct (main_body_not_json decode_sample 20 ["Paris"] "abc123" "<html>"
              (world_with (secrets_with_key "abc123") (Success "<html>")))
    as (Hrun & _).
  - vm_compute. reflexivity.
  - reflexivity.
  - reflexivity.
  - rewrite Hrun. reflexivity.
Defined.

(** X16. When the key cannot be loaded, whatever the exception (a missing
    entry, a file that cannot be parsed, a value that cannot be
    interpolated), [build_weather_query] and the script end with that
    exception: no URL is built, no request is sent, nothing is printed. *)
Theorem key_failure_stops_everything
    (decode : string -> result pyval) (PADDING : nat) (city : list string)
    (w : World) (e : exn) :
  fst (_get_api_key w) = Raised e ->
  build_weather_query city w = (Raised e, w) /\
  main decode PADDING city w = (Raised e, w) /\
  exit_status (fst (main decode PADDING city w)) <> 0.
Proof.
  intros Hkey.
  rewrite (main_without_key decode PADDING city w e Hkey), build_weather_query_run, Hkey.
  split; [reflexivity |]. split; [reflexivity | simpl; discriminate].
Qed.

(** X16 on a [secrets.ini] that cannot be parsed. *)
Lemma key_failure_stops_everything_witness :
  main (fun _ => Raised JSONDecodeError) 20 ["Paris"]
    (world_with {[ "secrets.ini" := Malformed ]} (Success "{}"))
  = (Raised ConfigParserError, world_with {[ "secrets.ini" := Malformed ]} (Success "{}")).
Proof.
  destruct (key_failure_stops_everything (fun _ => Raised JSONDecodeError) 20 ["Paris"]
              (world_with {[ "secrets.ini" := Malformed ]} (Success "{}"))
              ConfigParserError) as (_ & Hmain & _).
  - vm_compute. reflexivity.
  - exact Hmain.
Defined.

(** X17. When the key is loaded and the server answers with a JSON document,
    the script does what [display_weather_info] does with the decoded
    document, in the world where the one request has been sent. *)
Theorem main_displays_decoded_body
    (decode : string -> result pyval) (PADDING : nat) (city : list string)
    (api_key body : string) (weather_data : pyval) (w : World) :
  fst (_get_api_key w) = Returned api_key ->
  server w (request_url api_key city) = Success body ->
  decode body = Returned weather_data ->
  main decode PADDING city w
  = display_weather_info PADDING weather_data (sent w (request_url api_key city)).
Proof.
  intros Hkey Hserver Hdecode.
  rewrite (main_with_key decode PADDING city api_key w Hkey),
          (get_weather_data_response decode _ body w Hserver), Hdecode.
  reflexivity.
Qed.

(** X17 on a JSON document without the expected entries: the script ends
    with the [KeyError] of [display_weather_info], after its one request. *)
Lemma main_displays_decoded_body_witness :
  main (decode_only "{}" (PDict [])) 20 ["Paris"]
    (world_with (secrets_with_key "abc123") (Success "{}"))
  = (Raised (KeyError (PStr "name")),
     mkWorld (secrets_with_key "abc123") (fun _ => Success "{}")
       ["http://api.openweathermap.org/data/2.5/weather?q=Paris&units=metric&appid=abc123"]
       []).
Proof.
  rewrite (main_displays_decoded_body (decode_only "{}" (PDict [])) 20 ["Paris"]
             "abc123" "{}" (PDict [])
             (world_with (secrets_with_key "abc123") (Success "{}")));
    [reflexivity | vm_compute; reflexivity | reflexivity | reflexivity].
Defined.

(** ** The parameters of the request *)

Lemma all_chars_not_mem (test : ascii -> bool) (s : string) (x : ascii) :
  all_chars test s = true -> test x = false -> mem_char x s = false.
Proof.
  intros Hall Hx. induction s as [|c s IH]; [reflexivity |].
  cbn [all_chars mem_char] in *. apply andb_true_iff in Hall as [Hc Hs].
  rewrite (IH Hs), orb_false_r.
  destruct (Ascii.eqb_spec c x) as [-> |]; [| reflexivity].
  rewrite Hx in Hc. discriminate Hc.
Qed.

Lemma split_absent (c : ascii) (s : string) :
  mem_char c s = false -> decode.split c s = [s].
Proof.
  induction s as [|x s IH]; intros H; [reflexivity |].
  cbn [mem_char] in H. apply orb_false_iff in H as [Hx Hs].
  cbn [decode.split]. rewrite Hx, (IH Hs). reflexivity.
Qed.

Lemma unquote_absent (s : string) : mem_char "%" s = false -> decode.unquote s = s.
Proof.
  induction s as [|x s IH]; intros H; [reflexivity |].
  cbn [mem_char] in H. apply orb_false_iff in H as [Hx Hs].
  rewrite (unquote_plain x s Hx), (IH Hs). reflexivity.
Qed.

Lemma query_params_clean (enc key : string) :
  mem_char "#" enc = false -> mem_char "&" enc = false ->
  mem_char "#" key = false -> mem_char "&" key = false ->
  decode.parse_qsl
    (decode.url_query (BASE_WEATHER_API_URL +:+ "?q=" +:+ enc +:+ "&units=" +:+ "metric"
                       +:+ "&appid=" +:+ key))
  = [("q", decode.unquote_plus enc); ("units", "metric"); ("appid", decode.unquote_plus key)].
Proof.
  intros Hhash Hamp Hkeyhash Hkeyamp. unfold decode.url_query.
  replace (BASE_WEATHER_API_URL +:+ "?q=" +:+ enc +:+ "&units=" +:+ "metric"
           +:+ "&appid=" +:+ key)
    with ((BASE_WEATHER_API_URL +:+ "?q=" +:+ enc +:+ "&units=metric&appid=") +:+ key)
    by (rewrite !app_assoc_string; reflexivity).
  rewrite split_at_app
    by (rewrite !mem_char_app, Hhash; reflexivity).
  cbn [fst].
  rewrite (proj2 (proj2 (split_at_length "#" key)) Hkeyhash).
  replace ((BASE_WEATHER_API_URL +:+ "?q=" +:+ enc +:+ "&units=metric&appid=") +:+ key)
    with (BASE_WEATHER_API_URL
          +:+ String "?" (("q" +:+ String "=" enc)
                          +:+ String "&" ("units" +:+ String "=" "metric"
                                          +:+ String "&" ("appid=" +:+ key))))
    by (rewrite !app_assoc_string; reflexivity).
  rewrite split_at_hit by reflexivity. cbn [snd].
  unfold decode.parse_qsl.
  rewrite split_app by (rewrite mem_char_app; cbn [mem_char]; rewrite Hamp; reflexivity).
  change ("units" +:+ String "=" "metric" +:+ String "&" ("appid=" +:+ key))
    with (("units" +:+ String "=" "metric") +:+ String "&" ("appid=" +:+ key)).
  rewrite split_app by reflexivity.
  rewrite split_absent by (rewrite mem_char_app, Hkeyamp; reflexivity).
  change ("appid=" +:+ key) with ("appid" +:+ String "=" key).
  cbn [filter]. rewrite !item_not_empty. cbn [map].
  rewrite !parse_item_named by reflexivity.
  reflexivity.
Qed.

(** X19. When the key is made of letters, digits and the characters
    [_ . - ~] only, the URL that [build_weather_query] returns has exactly
    three parameters, whatever the city tokens hold: [q], which reads back
    as the joined tokens, [units] with [metric], and [appid], which reads
    back as the key. No character of a city name can add or change a
    parameter. *)
Theorem build_weather_query_three_parameters
    (city_input : list string) (api_key : string) (w : World) :
  fst (_get_api_key w) = Returned api_key ->
  all_chars parse.always_safe api_key = true ->
  exists url : string,
    build_weather_query city_input w = (Returned url, w) /\
    decode.parse_qsl (decode.url_query url)
    = [("q", join " " city_input); ("units", "metric"); ("appid", api_key)].
Proof.
  intros Hkey Hclean.
  eexists. rewrite build_weather_query_run, Hkey. split; [reflexivity |].
  destruct (quote_plus_clean (join " " city_input)) as [Hhash Hamp].
  rewrite query_params_clean;
    [| exact Hhash | exact Hamp
     | apply (all_chars_not_mem _ _ _ Hclean); reflexivity
     | apply (all_chars_not_mem _ _ _ Hclean); reflexivity].
  rewrite unquote_plus_quote_plus.
  unfold decode.unquote_plus.
  rewrite replace_char_absent by (apply (all_chars_not_mem _ _ _ Hclean); reflexivity).
  rewrite unquote_absent by (apply (all_chars_not_mem _ _ _ Hclean); reflexivity).
  reflexivity.
Qed.

(** X19 on a city name that holds the characters of a query. *)
Lemma build_weather_query_three_parameters_witness :
  exists url : string,
    build_weather_query ["x&appid=other"; "#"; "units=imperial"]
      (world_with (secrets_with_key "abc123") Unreachable)
    = (Returned url, world_with (secrets_with_key "abc123") Unreachable) /\
    decode.parse_qsl (decode.url_query url)
    = [("q", "x&appid=other # units=imperial"); ("units", "metric"); ("appid", "abc123")].
Proof.
  apply (build_weather_query_three_parameters ["x&appid=other"; "#"; "units=imperial"]
           "abc123" (world_with (secrets_with_key "abc123") Unreachable)).
  - vm_compute. reflexivity.
  - reflexivity.
Defined.

(** X20. Whatever the key holds, it comes last in the URL and cannot
    displace what precedes it: the first two parameters of the URL that
    [build_weather_query] returns are [q], which reads back as the joined
    city tokens, and [units] with [metric]. *)
Theorem build_weather_query_first_parameters
    (city_input : list string) (api_key : string) (w : World) :
  fst (_get_api_key w) = Returned api_key ->
  exists (url : string) (others : list (string * string)),
    build_weather_query city_input w = (Returned url, w) /\
    decode.parse_qsl (decode.url_query url)
    = ("q", join " " city_input) :: ("units", "metric") :: others /\
    decode.query_param "units" url = Some "metric".
Proof.
  intros Hkey.
  destruct (quote_plus_clean (join " " city_input)) as [Hhash Hamp].
  destruct (query_params (parse.quote_plus (join " " city_input)) api_key Hhash Hamp)
    as [others Hparams].
  rewrite unquote_plus_quote_plus in Hparams.
  eexists _, _. rewrite build_weather_query_run, Hkey.
  split; [reflexivity |]. split; [exact Hparams |].
  unfold decode.query_param. rewrite Hparams. reflexivity.
Qed.

(** X20 on a key that holds parameters of its own. *)
Lemma build_weather_query_first_parameters_witness :
  exists url : string,
    build_weather_query ["Paris"]
      (world_with (secrets_with_key "k&units=imperial&q=Rome") Unreachable)
    = (Returned url, world_with (secrets_with_key "k&units=imperial&q=Rome") Unreachable) /\
    decode.query_param "q" url = Some "Paris" /\
    decode.query_param "units" url = Some "metric".
Proof.
  destruct (build_weather_query_first_parameters ["Paris"] "k&units=imperial&q=Rome"
              (world_with (secrets_with_key "k&units=imperial&q=Rome") Unreachable))
    as (url & others & Hrun & Hparams & Hunits).
  - vm_compute. reflexivity.
  - exists url. split; [exact Hrun |]. split; [| exact Hunits].
    unfold decode.query_param. rewrite Hparams. reflexivity.
Defined.

(** ** The defaults of the configuration *)

(** X21. The section [openweather] has to be there even when the [DEFAULT]
    section has the key. With the section there and without an [api_key] of
    its own, [_get_api_key] returns the [api_key] of [DEFAULT]; without the
    section, it raises [KeyError] for [openweather] whatever [DEFAULT]
    holds. *)
Theorem get_api_key_defaults
    (w : World) (cfg : config) (key : string) :
  files w !! "secrets.ini" = Some (Wellformed cfg) ->
  defaults cfg !! "api_key" = Some (Interpolated key) ->
  (forall options : gmap string ini_value,
     sections cfg !! "openweather" = Some options ->
     options !! "api_key" = None ->
     _get_api_key w = (Returned key, w)) /\
  (sections cfg !! "openweather" = None ->
   _get_api_key w = (Raised (KeyError (PStr "openweather")), w)).
Proof.
  intros Hfile Hdefault. split.
  - intros options Hsection Hkey.
    rewrite get_api_key_run, Hfile. simpl. rewrite Hsection, Hkey, Hdefault. reflexivity.
  - intros Hsection.
    rewrite get_api_key_run, Hfile. simpl. rewrite Hsection. reflexivity.
Qed.

(** X21 on two files with the key in [DEFAULT]: one with an empty section
    [openweather], one without the section. *)
Lemma get_api_key_defaults_witness :
  fst (_get_api_key
         (world_with {[ "secrets.ini" :=
                          Wellformed (mkConfig {[ "api_key" := Interpolated "abc123" ]}
                                        {[ "openweather" := ∅ ]}) ]} Unreachable))
    = Returned "abc123" /\
  fst (_get_api_key
         (world_with {[ "secrets.ini" :=
                          Wellformed (mkConfig {[ "api_key" := Interpolated "abc123" ]} ∅) ]}
            Unreachable))
    = Raised (KeyError (PStr "openweather")).
Proof.
  split.
  - destruct (get_api_key_defaults
                (world_with {[ "secrets.ini" :=
                                 Wellformed (mkConfig {[ "api_key" := Interpolated "abc123" ]}
                                               {[ "openweather" := ∅ ]}) ]} Unreachable)
                (mkConfig {[ "api_key" := Interpolated "abc123" ]} {[ "openweather" := ∅ ]})
                "abc123") as [Hsection _].
    + vm_compute. reflexivity.
    + vm_compute. reflexivity.
    + rewrite (Hsection ∅); [reflexivity | vm_compute; reflexivity | vm_compute; reflexivity].
  - destruct (get_api_key_defaults
                (world_with {[ "secrets.ini" :=
                                 Wellformed (mkConfig {[ "api_key" := Interpolated "abc123" ]}
                                               ∅) ]} Unreachable)
                (mkConfig {[ "api_key" := Interpolated "abc123" ]} ∅)
                "abc123") as [_ Hnone].
    + vm_compute. reflexivity.
    + vm_compute. reflexivity.
    + rewrite Hnone; [reflexivity | vm_compute; reflexivity].
Defined.

(** ** What the Display Formatter reads *)

(** X22. [display_weather_info] reads four things of the response and
    nothing else: the name, the code and the description of the first
    weather entry, and the temperature. Two responses that agree on these
    are displayed alike, whatever else they hold: further weather entries
    and further fields are ignored. *)
Theorem display_weather_info_reads_four_fields
    (PADDING : nat) (response1 response2 weather1 weather2 first1 first2 main1 main2
     city weather_id description temperature : pyval) (w : World) :
  getitem_key response1 "name" = Returned city ->
  getitem_key response1 "weather" = Returned weather1 ->
  getitem_index weather1 0 = Returned first1 ->
  getitem_key first1 "id" = Returned weather_id ->
  getitem_key first1 "description" = Returned description ->
  getitem_key response1 "main" = Returned main1 ->
  getitem_key main1 "temp" = Returned temperature ->
  getitem_key response2 "name" = Returned city ->
  getitem_key response2 "weather" = Returned weather2 ->
  getitem_index weather2 0 = Returned first2 ->
  getitem_key first2 "id" = Returned weather_id ->
  getitem_key first2 "description" = Returned description ->
  getitem_key response2 "main" = Returned main2 ->
  getitem_key main2 "temp" = Returned temperature ->
  display_weather_info PADDING response1 w = display_weather_info PADDING response2 w.
Proof.
  intros A1 A2 A3 A4 A5 A6 A7 B1 B2 B3 B4 B5 B6 B7.
  rewrite (display_weather_info_lookups PADDING response1 weather1 first1 weather_id
             description main1 temperature city w A1 A2 A3 A4 A5 A6 A7).
  rewrite (display_weather_info_lookups PADDING response2 weather2 first2 weather_id
             description main2 temperature city w B1 B2 B3 B4 B5 B6 B7).
  reflexivity.
Qed.

(** X22 on the response of scenario 1 and on one with a second weather
    entry, more fields and another order of the fields. *)
Lemma display_weather_info_reads_four_fields_witness :
  display_weather_info 20 paris_response (world_with ∅ Unreachable)
  = display_weather_info 20
      (PDict [ ("cod", PInt 200);
               ("main", PDict [("humidity", PInt 40);
                               ("temp", PFloat (S754_finite false 37 (-1)))]);
               ("weather",
                PList [ PDict [("description", PStr "clear sky"); ("icon", PStr "01d");
                               ("id", PInt 800)];
                        PDict [("id", PInt 500); ("description", PStr "light rain")] ]);
               ("name", PStr "Paris") ])
      (world_with ∅ Unreachable).
Proof.
  apply (display_weather_info_reads_four_fields 20 _ _
           (PList [PDict [("id", PInt 800); ("description", PStr "clear sky")]])
           (PList [ PDict [("description", PStr "clear sky"); ("icon", PStr "01d");
                           ("id", PInt 800)];
                    PDict [("id", PInt 500); ("description", PStr "light rain")] ])
           (PDict [("id", PInt 800); ("description", PStr "clear sky")])
           (PDict [("description", PStr "clear sky"); ("icon", PStr "01d"); ("id", PInt 800)])
           (PDict [("temp", PFloat (S754_finite false 37 (-1)))])
           (PDict [("humidity", PInt 40); ("temp", PFloat (S754_finite false 37 (-1)))])
           (PStr "Paris") (PInt 800) (PStr "clear sky")
           (PFloat (S754_finite false 37 (-1))));
    reflexivity.
Defined.
